(** * AI-Math-agent: the session memory store, the Action coercion and the
      pipeline orchestrator, embedded from the Python sources.

    - [Core_Agent/mcp_server.py]  : [ModularMemoryStore] and [call_tool]
    - [Core_Agent/action.py]      : [ActionAgent._validate_and_fix_result]
    - [Core_Agent/agent_clean.py] : [CognitiveAgent.analyze], [quick_solve]
    - [Core_Agent/models.py]      : the records exchanged between them

    Python [int] is [Z]; Python [float] is IEEE binary64, taken from the
    Standard Library's [SpecFloat] (precision 53, emax 1024), so that the
    arithmetic and the [.1f] rendering round exactly as CPython does.
    Python [str] is a [string] holding the UTF-8 bytes of the text. *)

From Stdlib Require Import ZArith String Ascii List Bool Lia DecimalString.
From Stdlib Require Import SpecFloat.
From stdpp Require Import gmap strings list.

Local Open Scope string_scope.
Local Open Scope list_scope.
Local Open Scope Z_scope.

(** ** Python builtins used by the sources *)

Module Py.

(** The exceptions that the modelled code meets, each with the text
    that [str(e)] gives. *)
Inductive exn :=
| ZeroDivisionError (msg : string)
| OverflowError (msg : string)
| KeyError (key : string)
| ValueError (msg : string)
| TypeError (msg : string)
| OtherError (msg : string).

Definition exn_str (e : exn) : string :=
  match e with
  | ZeroDivisionError msg | OverflowError msg | ValueError msg
  | TypeError msg | OtherError msg => msg
  | KeyError key => "'" +:+ key +:+ "'"
  end.

Inductive outcome (A : Type) :=
| Returned (a : A)
| Raised (e : exn).
Arguments Returned {A} a.
Arguments Raised {A} e.

(** [s.startswith(p)] *)
Definition startswith (s p : string) : bool := String.prefix p s.

(** [needle in hay] on strings: substring test. *)
Fixpoint str_in (needle hay : string) : bool :=
  if String.prefix needle hay then true
  else match hay with
       | EmptyString => false
       | String _ rest => str_in needle rest
       end.

(** [s.lower()] on the ASCII letters.  The text is held as UTF-8, whose
    bytes above 127 are left alone: no code point other than [X] has a
    lower-case form that contains [x], the only use the sources make of
    [lower]. *)
Definition lower_ascii (c : ascii) : ascii :=
  let n := nat_of_ascii c in
  if ((65 <=? n)%nat && (n <=? 90)%nat)%bool then ascii_of_nat (n + 32) else c.

Fixpoint lower (s : string) : string :=
  match s with
  | EmptyString => EmptyString
  | String c rest => String (lower_ascii c) (lower rest)
  end.

(** [str(n)] for an [int]. *)
Definition str_int (z : Z) : string := NilZero.string_of_int (Z.to_int z).

(** [l[start:]] for a list, with Python's treatment of a negative or
    too large [start]. *)
Definition slice_from {A : Type} (start : Z) (l : list A) : list A :=
  let n := Z.of_nat (length l) in
  let i := if start <? 0 then Z.max (start + n) 0 else Z.min start n in
  drop (Z.to_nat i) l.

(** [sum(1 for r in l if p(r))] *)
Definition count_if {A : Type} (p : A -> bool) (l : list A) : Z :=
  Z.of_nat (length (filter (fun r => p r = true) l)).

(** *** binary64 *)

Definition float := spec_float.
Definition prec : Z := 53.
Definition emax : Z := 1024.

Definition fmul : float -> float -> float := SFmul prec emax.
Definition fdiv : float -> float -> float := SFdiv prec emax.
Definition flt : float -> float -> bool := SFltb.
Definition fle : float -> float -> bool := SFleb.

Definition is_inf (x : float) : bool :=
  match x with S754_infinity _ => true | _ => false end.

(** [float(z)] for an [int]: the nearest binary64, [OverflowError] when
    that does not exist. *)
Definition float_of_int (z : Z) : outcome float :=
  let x := binary_normalize prec emax z 0 false in
  if is_inf x then Raised (OverflowError "int too large to convert to float")
  else Returned x.

(** An integer as an (unrounded) binary operand. *)
Definition int_operand (z : Z) : float :=
  match z with
  | Z0 => S754_zero false
  | Zpos p => S754_finite false p 0
  | Zneg p => S754_finite true p 0
  end.

(** [a / b] on two [int]s: the correctly rounded quotient. *)
Definition truediv (a b : Z) : outcome float :=
  if b =? 0 then Raised (ZeroDivisionError "division by zero")
  else let q := fdiv (int_operand a) (int_operand b) in
       if is_inf q
       then Raised (OverflowError "integer division result too large for a float")
       else Returned q.

(** Float literals of the sources: [n/10] correctly rounded is the
    binary64 that the decimal literal denotes. *)
Definition tenths (n : Z) : float :=
  fdiv (binary_normalize prec emax n 0 false)
       (binary_normalize prec emax 10 0 false).
Definition f100 : float := binary_normalize prec emax 100 0 false.

(** Nearest integer to [a / b] for [b > 0], ties to even. *)
Definition div_half_even (a b : Z) : Z :=
  let q := a / b in
  match 2 * (a mod b) ?= b with
  | Lt => q
  | Gt => q + 1
  | Eq => if Z.even q then q else q + 1
  end.

Definition sign_str (s : bool) : string := if s then "-" else "".

(** [f"{x:.1f}"]: the exact value of [x] rounded to one decimal place,
    ties to even. *)
Definition format_1f (x : float) : string :=
  match x with
  | S754_nan => "nan"
  | S754_infinity s => sign_str s +:+ "inf"
  | S754_zero s => sign_str s +:+ "0.0"
  | S754_finite s m e =>
      let n := if 0 <=? e then 10 * Zpos m * 2 ^ e
               else div_half_even (10 * Zpos m) (2 ^ (- e)) in
      sign_str s +:+ str_int (n / 10) +:+ "." +:+ str_int (n mod 10)
  end.

End Py.

Import Py.

(** ** The session memory store ([Core_Agent/mcp_server.py]) *)

Module MemoryStore.

(** [models.ProblemResult]; the timestamp is the clock reading taken by
    the field's default factory when the record is built. *)
Record ProblemResult := mkProblemResult {
  pr_timestamp : Z;
  pr_problem : string;
  pr_result : string;
  pr_success : bool;
  pr_strategy_used : option string;
  pr_confidence : option float
}.

(** [models.MemoryStatus] *)
Record MemoryStatus := mkMemoryStatus {
  total_problems : Z;
  success_count : Z;
  error_count : Z;
  success_rate : string;
  operation_stats : gmap string Z;
  recent_history : list ProblemResult
}.

(** [models.StoreResultRequest] and [models.StoreResultResponse] *)
Record StoreResultRequest := mkStoreResultRequest {
  req_problem : string;
  req_result : string;
  req_success : bool;
  req_strategy_used : option string;
  req_confidence : option float
}.

Record StoreResultResponse := mkStoreResultResponse {
  resp_status : string;
  resp_problem : string;
  resp_result : string;
  resp_success : bool;
  resp_total_problems : Z
}.

Record ResetMemoryResponse := mkResetMemoryResponse {
  reset_status : string;
  reset_message : string
}.

Record MemorySummary := mkMemorySummary {
  summary : string;
  raw_data : MemoryStatus
}.

(** The object [ModularMemoryStore]: its two attributes. *)
Record ModularMemoryStore := mkStore {
  session_history : list ProblemResult;
  memory_status : MemoryStatus
}.

(** [MemoryStatus()]: every field at its default. *)
Definition MemoryStatus_default : MemoryStatus :=
  {| total_problems := 0;
     success_count := 0;
     error_count := 0;
     success_rate := "0%";
     operation_stats :=
       <["addition" := 0]> (<["subtraction" := 0]>
         (<["multiplication" := 0]> (<["division" := 0]> ∅)));
     recent_history := [] |}.

(** [ModularMemoryStore.__init__] *)
Definition init : ModularMemoryStore :=
  {| session_history := []; memory_status := MemoryStatus_default |}.

(** *** Methods mutate the store and may raise: state and exception.
    A raised exception leaves the assignments made before it in place. *)

Definition M (A : Type) : Type :=
  ModularMemoryStore -> outcome A * ModularMemoryStore.

Definition ret {A : Type} (a : A) : M A := fun st => (Returned a, st).

Definition bind {A B : Type} (c : M A) (k : A -> M B) : M B :=
  fun st =>
    match c st with
    | (Returned a, st') => k a st'
    | (Raised e, st') => (Raised e, st')
    end.

Definition lift {A : Type} (o : outcome A) : M A := fun st => (o, st).

Definition get : M ModularMemoryStore := fun st => (Returned st, st).

Definition modify (f : ModularMemoryStore -> ModularMemoryStore) : M unit :=
  fun st => (Returned tt, f st).

Definition when (b : bool) (c : M unit) : M unit := if b then c else ret tt.

Notation "'let!' x ':=' c 'in' k" := (bind c (fun x => k))
  (at level 10, x name, c at level 100, k at level 200).
Notation "c ';;;' k" := (bind c (fun _ => k))
  (at level 100, k at level 200, right associativity).

(** Assignments to the attributes of [self.memory_status]. *)
Definition set_status (f : MemoryStatus -> MemoryStatus) : M unit :=
  modify (fun st => {| session_history := session_history st;
                       memory_status := f (memory_status st) |}).

Definition with_total (v : Z) (ms : MemoryStatus) : MemoryStatus :=
  {| total_problems := v; success_count := success_count ms;
     error_count := error_count ms; success_rate := success_rate ms;
     operation_stats := operation_stats ms;
     recent_history := recent_history ms |}.

Definition with_success_count (v : Z) (ms : MemoryStatus) : MemoryStatus :=
  {| total_problems := total_problems ms; success_count := v;
     error_count := error_count ms; success_rate := success_rate ms;
     operation_stats := operation_stats ms;
     recent_history := recent_history ms |}.

Definition with_error_count (v : Z) (ms : MemoryStatus) : MemoryStatus :=
  {| total_problems := total_problems ms; success_count := success_count ms;
     error_count := v; success_rate := success_rate ms;
     operation_stats := operation_stats ms;
     recent_history := recent_history ms |}.

Definition with_success_rate (v : string) (ms : MemoryStatus) : MemoryStatus :=
  {| total_problems := total_problems ms; success_count := success_count ms;
     error_count := error_count ms; success_rate := v;
     operation_stats := operation_stats ms;
     recent_history := recent_history ms |}.

Definition with_operation_stats (v : gmap string Z) (ms : MemoryStatus)
  : MemoryStatus :=
  {| total_problems := total_problems ms; success_count := success_count ms;
     error_count := error_count ms; success_rate := success_rate ms;
     operation_stats := v;
     recent_history := recent_history ms |}.

Definition with_recent_history (v : list ProblemResult) (ms : MemoryStatus)
  : MemoryStatus :=
  {| total_problems := total_problems ms; success_count := success_count ms;
     error_count := error_count ms; success_rate := success_rate ms;
     operation_stats := operation_stats ms;
     recent_history := v |}.

(** [self.memory_status.operation_stats[key] += 1]: [KeyError] when the
    key is not in the dict. *)
Definition incr_stat (key : string) : M unit :=
  let! st := get in
  match operation_stats (memory_status st) !! key with
  | None => lift (Raised (KeyError key))
  | Some n =>
      set_status (fun ms =>
        with_operation_stats (<[key := n + 1]> (operation_stats ms)) ms)
  end.

(** [_update_operation_stats]: four independent substring tests. *)
Definition _update_operation_stats (problem : string) : M unit :=
  when (str_in "+" problem) (incr_stat "addition") ;;;
  when (str_in "-" problem) (incr_stat "subtraction") ;;;
  when (str_in "*" problem || str_in "×" problem
        || str_in "x" (lower problem)) (incr_stat "multiplication") ;;;
  when (str_in "/" problem || str_in "÷" problem) (incr_stat "division").

(** [store_result]; [now] is the clock reading stamped on the record. *)
Definition store_result (now : Z) (request : StoreResultRequest)
  : M StoreResultResponse :=
  let problem_result :=
    {| pr_timestamp := now;
       pr_problem := req_problem request;
       pr_result := req_result request;
       pr_success := req_success request;
       pr_strategy_used := req_strategy_used request;
       pr_confidence := req_confidence request |} in
  modify (fun st => {| session_history := session_history st ++ [problem_result];
                       memory_status := memory_status st |}) ;;;
  set_status (fun ms => with_total (total_problems ms + 1) ms) ;;;
  (if req_success request
   then set_status (fun ms => with_success_count (success_count ms + 1) ms)
   else set_status (fun ms => with_error_count (error_count ms + 1) ms)) ;;;
  let! st := get in
  let! ratio := lift (truediv (success_count (memory_status st))
                             (total_problems (memory_status st))) in
  let rate := fmul ratio f100 in
  set_status (with_success_rate (format_1f rate +:+ "%")) ;;;
  _update_operation_stats (req_problem request) ;;;
  modify (fun st =>
    {| session_history := session_history st;
       memory_status := with_recent_history
                          (slice_from (-10) (session_history st))
                          (memory_status st) |}) ;;;
  let! st := get in
  ret {| resp_status := "Result stored successfully";
         resp_problem := req_problem request;
         resp_result := req_result request;
         resp_success := req_success request;
         resp_total_problems := total_problems (memory_status st) |}.

(** [get_memory_status] hands out the status object. *)
Definition get_memory_status : M MemoryStatus :=
  let! st := get in ret (memory_status st).

(** [reset_memory]: the history is cleared and a default status built. *)
Definition reset_memory : M ResetMemoryResponse :=
  modify (fun st => {| session_history := [];
                       memory_status := memory_status st |}) ;;;
  modify (fun st => {| session_history := session_history st;
                       memory_status := MemoryStatus_default |}) ;;;
  ret {| reset_status := "Memory reset successfully";
         reset_message := "All learning history cleared. Agent will start fresh with conservative approach." |}.

(** [_analyze_recent_trend] *)
Definition _analyze_recent_trend (st : ModularMemoryStore) : string :=
  if Z.of_nat (length (session_history st)) <? 2 then "insufficient data"
  else
    let recent_5 := slice_from (-5) (session_history st) in
    let recent_successes := count_if pr_success recent_5 in
    if 4 <=? recent_successes then "strongly improving"
    else if 3 <=? recent_successes then "improving"
    else if 2 <=? recent_successes then "mixed"
    else "declining".

(** [str(d)] for the statistics dict: a dict keeps the order in which
    its keys were inserted, which [MemoryStatus()] fixes and [+=] on a
    key that is present does not change. *)
Definition stat_keys : list string :=
  ["addition"; "subtraction"; "multiplication"; "division"].

Definition str_stats (d : gmap string Z) : string :=
  "{" +:+ String.concat ", "
            (omap (fun k => (fun v => "'" +:+ k +:+ "': " +:+ str_int v) <$> d !! k)
                  stat_keys) +:+ "}".

Definition nl : string := String (ascii_of_nat 10) "".

(** [get_memory_summary] *)
Definition get_memory_summary : M MemorySummary :=
  let! st := get in
  let ms := memory_status st in
  let! summary_text :=
    if total_problems ms =? 0
    then ret "No previous experience. This is a fresh start."
    else
      let! ratio := lift (truediv (success_count ms) (total_problems ms)) in
      let rate := fmul ratio f100 in
      let text :=
        "AGENT MEMORY SUMMARY:" +:+ nl +:+
        "- Total Problems Solved: " +:+ str_int (total_problems ms) +:+ nl +:+
        "- Success Rate: " +:+ format_1f rate +:+ "% (" +:+
           str_int (success_count ms) +:+ "/" +:+
           str_int (total_problems ms) +:+ ")" +:+ nl +:+
        "- Operation Experience: " +:+ str_stats (operation_stats ms) +:+ nl +:+
        "- Recent Performance Trend: " +:+ _analyze_recent_trend st in
      let text :=
        if 0 <? error_count ms
        then text +:+ nl +:+ "- Recent Errors: " +:+
             str_int (error_count ms) +:+ " failures recorded"
        else text in
      let text :=
        match last (session_history st) with
        | None => text
        | Some l =>
            let text :=
              text +:+ nl +:+ "- Last Problem: '" +:+ pr_problem l +:+
              "' → " +:+ pr_result l +:+ " (" +:+
              (if pr_success l then "SUCCESS" else "FAILED") +:+ ")" in
            match pr_strategy_used l with
            | Some (String c rest) =>
                text +:+ nl +:+ "- Last Strategy Used: " +:+ String c rest
            | _ => text
            end
        end in
      ret text in
  ret {| summary := summary_text; raw_data := ms |}.

(** *** The tool dispatcher [call_tool] *)

(** The reply of [get_recent_history]. *)
Record RecentHistory := mkRecentHistory {
  recent_problems : list ProblemResult;
  count : Z;
  analysis_success_rate : string;
  most_recent_result : option ProblemResult;
  trend : string
}.

(** The [get_recent_history] branch, for an integer [limit]. *)
Definition get_recent_history (limit : Z) : M RecentHistory :=
  let! st := get in
  let recent_history :=
    match session_history st with
    | [] => []
    | _ :: _ => slice_from (- limit) (session_history st)
    end in
  let! rate :=
    match recent_history with
    | [] => ret "0%"
    | _ :: _ =>
        let! ratio := lift (truediv (count_if pr_success recent_history)
                                   (Z.of_nat (length recent_history))) in
        ret (format_1f (fmul ratio f100) +:+ "%")
    end in
  ret {| recent_problems := recent_history;
         count := Z.of_nat (length recent_history);
         analysis_success_rate := rate;
         most_recent_result := last recent_history;
         trend := _analyze_recent_trend st |}.

(** A tool call: the tool's name with its validated arguments.  For
    [get_recent_history], [None] is an absent [limit] (default 5). *)
Inductive tool :=
| tool_store_result (now : Z) (request : StoreResultRequest)
| tool_get_memory_status
| tool_get_memory_summary
| tool_reset_memory
| tool_get_recent_history (limit : option Z)
| tool_analyze_performance_trends
| tool_unknown (name : string).

(** What the reply serialises.  [analyze_performance_trends] computes
    its reply (the analysis, or the error reply when a step of it raises)
    from the status and the history without assigning to either; the
    content of that reply is not modelled. *)
Inductive reply :=
| reply_stored (r : StoreResultResponse)
| reply_status (s : MemoryStatus)
| reply_summary (s : MemorySummary)
| reply_reset (r : ResetMemoryResponse)
| reply_history (h : RecentHistory)
| reply_trends
| reply_error (e : exn).

(** [try: ... except Exception as e: return error_result] *)
Definition handle {A : Type} (c : M A) (k : A -> reply)
  : ModularMemoryStore -> reply * ModularMemoryStore :=
  fun st =>
    match c st with
    | (Returned a, st') => (k a, st')
    | (Raised e, st') => (reply_error e, st')
    end.

Definition call_tool (t : tool)
  : ModularMemoryStore -> reply * ModularMemoryStore :=
  match t with
  | tool_store_result now request =>
      handle (store_result now request) reply_stored
  | tool_get_memory_status => handle get_memory_status reply_status
  | tool_get_memory_summary => handle get_memory_summary reply_summary
  | tool_reset_memory => handle reset_memory reply_reset
  | tool_get_recent_history limit =>
      handle (get_recent_history (default 5 limit)) reply_history
  | tool_analyze_performance_trends =>
      handle (let! _ := get in ret tt) (fun _ => reply_trends)
  | tool_unknown name =>
      fun st => (reply_error (ValueError ("Unknown tool: " +:+ name)), st)
  end.

(** The store after a sequence of tool calls. *)
Definition run_tools (ts : list tool) (st : ModularMemoryStore)
  : ModularMemoryStore :=
  fold_left (fun s t => snd (call_tool t s)) ts st.

(** The store after a sequence of [store_result] calls on a fresh store;
    each request comes with the clock reading of its call. *)
Definition store_all (reqs : list (Z * StoreResultRequest))
  : ModularMemoryStore :=
  run_tools (map (fun r => tool_store_result (fst r) (snd r)) reqs) init.

(** The record that [store_result] builds from a request. *)
Definition record_of (r : Z * StoreResultRequest) : ProblemResult :=
  {| pr_timestamp := fst r;
     pr_problem := req_problem (snd r);
     pr_result := req_result (snd r);
     pr_success := req_success (snd r);
     pr_strategy_used := req_strategy_used (snd r);
     pr_confidence := req_confidence (snd r) |}.

End MemoryStore.

(** ** The stage records ([Core_Agent/models.py]) and the four stages *)

Module Agent.

(** What [json.loads] returns. *)
#[warnings="-register-all"]
Inductive json :=
| JNull
| JBool (b : bool)
| JInt (z : Z)
| JFloat (x : float)
| JStr (s : string)
| JList (l : list json)
| JDict (d : gmap string json).

(** The [Literal[...]] fields. *)
Inductive Complexity := simple | medium | complex.
Inductive Strategy :=
  conservative_approach | standard_verification | confident_direct.
Inductive Method :=
  direct_calculation | standard_with_check
| step_by_step_verification | conservative_detailed.
Inductive VerificationLevel := minimal | standard | high | extra.
Inductive Risk := risk_low | risk_medium | risk_high.

Record PerceptionOutput := mkPerceptionOutput {
  is_valid : bool;
  operands : list (float + string);
  operators : list string;
  complexity : Complexity;
  requires_order_ops : bool;
  estimated_difficulty : Z;
  error_message : option string;
  perception_notes : string
}.

Record MemoryOutput := mkMemoryOutput {
  session_success_rate : string;
  strategy_recommendation : Strategy;
  confidence_modifier : float;
  similar_problems_found : Z;
  memory_insights : string;
  recommended_approach : string
}.

Record DecisionOutput := mkDecisionOutput {
  selected_method : Method;
  final_confidence : float;
  show_working_steps : bool;
  verification_level : VerificationLevel;
  reasoning : string;
  execution_strategy : string;
  risk_assessment : Risk
}.

Record ActionOutput := mkActionOutput {
  result : string;
  steps : list string;
  confidence : float;
  verification : string;
  execution_notes : string
}.

Record MemoryInput := mkMemoryInput {
  mi_expression : string;
  mi_perception_data : PerceptionOutput;
  mi_memory_summary : string
}.

Record DecisionInput := mkDecisionInput {
  di_expression : string;
  di_perception_data : PerceptionOutput;
  di_memory_data : MemoryOutput
}.

Record ActionInput := mkActionInput {
  ai_expression : string;
  ai_perception_data : PerceptionOutput;
  ai_decision_data : DecisionOutput
}.

(** The bundle; [timestamp] is the clock reading when it is built. *)
Record CognitiveAnalysisResult := mkCognitiveAnalysisResult {
  expression : string;
  perception : PerceptionOutput;
  memory : MemoryOutput;
  decision : DecisionOutput;
  action : ActionOutput;
  success : bool;
  timestamp : Z
}.

(** The float literals of the sources. *)
Definition f0_0 : float := S754_zero false.
Definition f0_5 : float := tenths 5.
Definition f0_6 : float := tenths 6.
Definition f0_7 : float := tenths 7.
Definition f1_0 : float := tenths 10.

(** [min(a, b)] and [max(a, b)] of two floats: the first argument stays
    unless the second is strictly smaller (larger). *)
Definition py_min (a b : float) : float := if flt b a then b else a.
Definition py_max (a b : float) : float := if flt a b then b else a.

Inductive stage := Perception | Memory | Decision | Action.

(** The oracle calls made so far, oldest first, each with the stage that
    made it and its prompt. *)
Definition log : Type := list (stage * string).

(** Stage code: it may call the oracle and may raise. *)
Definition M (A : Type) : Type := log -> outcome A * log.

Definition ret {A : Type} (a : A) : M A := fun l => (Returned a, l).

Definition bind {A B : Type} (c : M A) (k : A -> M B) : M B :=
  fun l =>
    match c l with
    | (Returned a, l') => k a l'
    | (Raised e, l') => (Raised e, l')
    end.

Definition lift {A : Type} (o : outcome A) : M A := fun l => (o, l).

(** [try: body except Exception as e: handler(e)] *)
Definition try_except {A : Type} (body : M A) (handler : exn -> M A) : M A :=
  fun l =>
    match body l with
    | (Returned a, l') => (Returned a, l')
    | (Raised e, l') => handler e l'
    end.

Notation "'let!' x ':=' c 'in' k" := (bind c (fun x => k))
  (at level 10, x name, c at level 100, k at level 200).

(** *** Slices of a [str] by code point, on its UTF-8 bytes *)

Definition is_continuation (c : ascii) : bool :=
  let n := nat_of_ascii c in ((128 <=? n)%nat && (n <? 192)%nat)%bool.

Fixpoint code_points (s : string) : list string :=
  match s with
  | EmptyString => []
  | String c rest =>
      match code_points rest with
      | String c' ch :: more =>
          if is_continuation c' then String c (String c' ch) :: more
          else String c "" :: String c' ch :: more
      | other => String c "" :: other
      end
  end.

(** [s[a:-b]] *)
Definition slice_between (a b : nat) (s : string) : string :=
  let cs := code_points s in
  String.concat "" (take (length cs - b - a) (drop a cs)).

(** What the agent code runs against.  [oracle n prompt] is the reply to
    the [n]-th oracle call of a run (its [response.text]), or the
    exception that the call ends in.  The library functions: [str.strip];
    [json.loads] (on failure, the text of its [JSONDecodeError]); [str]
    of a float and of a list or dict; [float] of a string ([None]:
    [ValueError]); the text of the [TypeError] that a reply which is no
    dict ends in.  The prompt templates, f-strings over the expression
    and the JSON dump of the stage's input, are kept as functions of that
    input.  Last, pydantic's validating constructors of the four stage
    outputs, applied to the parsed reply. *)
Record world := mkWorld {
  oracle : nat -> string -> outcome string;
  strip : string -> string;
  json_loads : string -> string + json;
  repr_float : float -> string;
  repr_container : json -> string;
  float_of_str : string -> option float;
  not_a_mapping : json -> string;
  _create_perception_prompt : string -> string;
  _create_memory_prompt : MemoryInput -> string;
  _create_decision_prompt : DecisionInput -> string;
  _create_action_prompt : ActionInput -> string;
  PerceptionOutput_of : json -> outcome PerceptionOutput;
  MemoryOutput_of : json -> outcome MemoryOutput;
  DecisionOutput_of : json -> outcome DecisionOutput;
  ActionOutput_of : gmap string json -> outcome ActionOutput
}.

Section Stages.

Variable W : world.

(** [await asyncio.to_thread(self.model.generate_content, prompt)]
    followed by [response.text]. *)
Definition generate_content (s : stage) (prompt : string) : M string :=
  fun l => (oracle W (length l) prompt, l ++ [(s, prompt)]).

(** [_parse_llm_response], the same in the four stage classes. *)
Definition _parse_llm_response (response_text : string) : outcome json :=
  let json_text := strip W response_text in
  let json_text :=
    if startswith json_text "```json" then slice_between 7 3 json_text
    else if startswith json_text "```" then slice_between 3 3 json_text
    else json_text in
  let json_text := strip W json_text in
  match json_loads W json_text with
  | inr v => Returned v
  | inl e =>
      Raised (ValueError ("Failed to parse LLM response as JSON: " +:+ e))
  end.

(** *** [ActionAgent._validate_and_fix_result] *)

Definition is_int_or_float (v : json) : bool :=
  match v with JBool _ | JInt _ | JFloat _ => true | _ => false end.

Definition is_str (v : json) : bool :=
  match v with JStr _ => true | _ => false end.

(** [str(v)] *)
Definition py_str (v : json) : string :=
  match v with
  | JNull => "None"
  | JBool true => "True"
  | JBool false => "False"
  | JInt z => str_int z
  | JFloat x => repr_float W x
  | JStr s => s
  | JList _ | JDict _ => repr_container W v
  end.

(** [float(v)] *)
Definition py_float (v : json) : outcome float :=
  match v with
  | JInt z => float_of_int z
  | JFloat x => Returned x
  | JBool b => Returned (if b then f1_0 else f0_0)
  | JStr s =>
      match float_of_str W s with
      | Some x => Returned x
      | None => Raised (ValueError "could not convert string to float")
      end
  | JNull | JList _ | JDict _ =>
      Raised (TypeError "float() argument must be a string or a real number")
  end.

Definition fix_result (d : gmap string json) : gmap string json :=
  match d !! "result" with
  | Some result_value =>
      if is_int_or_float result_value
      then <["result" := JStr (py_str result_value)]> d
      else if negb (is_str result_value)
           then <["result" := JStr (py_str result_value)]> d
           else d
  | None => d
  end.

Definition fix_steps (d : gmap string json) : gmap string json :=
  match d !! "steps" with
  | Some (JList l) =>
      <["steps" := JList (map (fun step => JStr (py_str step)) l)]> d
  | Some other => <["steps" := JList [JStr (py_str other)]]> d
  | None => d
  end.

Definition fix_confidence (d : gmap string json)
  : outcome (gmap string json) :=
  match d !! "confidence" with
  | Some v =>
      match py_float v with
      | Returned c =>
          Returned (<["confidence" := JFloat (py_max f0_0 (py_min f1_0 c))]> d)
      | Raised (ValueError _) | Raised (TypeError _) =>
          Returned (<["confidence" := JFloat f0_5]> d)
      | Raised e => Raised e
      end
  | None => Returned d
  end.

Definition fix_text (field : string) (d : gmap string json)
  : gmap string json :=
  match d !! field with
  | Some v => if is_str v then d else <[field := JStr (py_str v)]> d
  | None => d
  end.

Definition _validate_and_fix_result (result_dict : gmap string json)
  : outcome (gmap string json) :=
  match fix_confidence (fix_steps (fix_result result_dict)) with
  | Returned d =>
      Returned (fix_text "execution_notes" (fix_text "verification" d))
  | Raised e => Raised e
  end.

(** *** The four stages *)

(** [PerceptionAgent._create_error_response] *)
Definition PerceptionAgent_create_error_response
    (expression error_msg : string) : PerceptionOutput :=
  {| is_valid := false;
     operands := [];
     operators := [];
     complexity := simple;
     requires_order_ops := false;
     estimated_difficulty := 1;
     error_message := Some ("Perception analysis failed: " +:+ error_msg);
     perception_notes :=
       "Failed to analyze expression '" +:+ expression +:+
       "' due to: " +:+ error_msg |}.

(** [PerceptionAgent.analyze] *)
Definition PerceptionAgent_analyze (expression : string)
  : M PerceptionOutput :=
  let perception_prompt := _create_perception_prompt W expression in
  try_except
    (let! text := generate_content Perception perception_prompt in
     let! result_dict := lift (_parse_llm_response text) in
     lift (PerceptionOutput_of W result_dict))
    (fun e =>
       ret (PerceptionAgent_create_error_response expression (exn_str e))).

(** [MemoryAgent._create_error_response] *)
Definition MemoryAgent_create_error_response
    (input_data : MemoryInput) (error_msg : string) : MemoryOutput :=
  {| session_success_rate := "Error accessing memory: " +:+ error_msg;
     strategy_recommendation := conservative_approach;
     confidence_modifier := f0_6;
     similar_problems_found := 0;
     memory_insights :=
       "Memory consultation failed: " +:+ error_msg +:+
       ". Using safe defaults.";
     recommended_approach :=
       "Using conservative approach due to memory access issues. Recommend step-by-step verification and careful execution." |}.

(** [MemoryAgent.consult] *)
Definition MemoryAgent_consult (input_data : MemoryInput) : M MemoryOutput :=
  let memory_prompt := _create_memory_prompt W input_data in
  try_except
    (let! text := generate_content Memory memory_prompt in
     let! result_dict := lift (_parse_llm_response text) in
     lift (MemoryOutput_of W result_dict))
    (fun e => ret (MemoryAgent_create_error_response input_data (exn_str e))).

(** [DecisionAgent._create_error_response] *)
Definition DecisionAgent_create_error_response
    (input_data : DecisionInput) (error_msg : string) : DecisionOutput :=
  {| selected_method := conservative_detailed;
     final_confidence := f0_5;
     show_working_steps := true;
     verification_level := high;
     reasoning :=
       "Decision system failed: " +:+ error_msg +:+
       ". Using safe default approach with high verification to ensure accuracy despite system error.";
     execution_strategy :=
       "Careful step-by-step approach due to decision error. Will use detailed breakdown and multiple verification methods to compensate for decision system failure.";
     risk_assessment := risk_high |}.

(** [DecisionAgent.decide] *)
Definition DecisionAgent_decide (input_data : DecisionInput)
  : M DecisionOutput :=
  let decision_prompt := _create_decision_prompt W input_data in
  try_except
    (let! text := generate_content Decision decision_prompt in
     let! result_dict := lift (_parse_llm_response text) in
     lift (DecisionOutput_of W result_dict))
    (fun e =>
       ret (DecisionAgent_create_error_response input_data (exn_str e))).

(** [ActionAgent._create_error_response] *)
Definition ActionAgent_create_error_response
    (input_data : ActionInput) (error_msg : string) : ActionOutput :=
  {| result := "Error: " +:+ error_msg;
     steps :=
       [ "Action execution failed: " +:+ error_msg;
         "Unable to complete mathematical calculation";
         "System error prevented normal execution" ];
     confidence := f0_0;
     verification := "Unable to verify due to execution error";
     execution_notes :=
       "Action execution system encountered an error: " +:+ error_msg +:+
       ". The mathematical calculation for '" +:+
       ai_expression input_data +:+
       "' could not be completed. This may be due to system issues, invalid expression format, or other technical problems." |}.

(** [ActionAgent.execute] *)
Definition ActionAgent_execute (input_data : ActionInput) : M ActionOutput :=
  let action_prompt := _create_action_prompt W input_data in
  try_except
    (let! text := generate_content Action action_prompt in
     let! result_dict := lift (_parse_llm_response text) in
     let! result_dict :=
       lift (match result_dict with
             | JDict d => _validate_and_fix_result d
             | other => Raised (TypeError (not_a_mapping W other))
             end) in
     lift (ActionOutput_of W result_dict))
    (fun e => ret (ActionAgent_create_error_response input_data (exn_str e))).

(** *** The orchestrator ([Core_Agent/agent_clean.py]) *)

(** [CognitiveAgent._create_error_result] *)
Definition _create_error_result (now : Z) (expression : string)
    (perception : option PerceptionOutput) (error_type : string)
  : CognitiveAnalysisResult :=
  let error_perception :=
    match perception with
    | Some p => p
    | None =>
        {| is_valid := false;
           operands := [];
           operators := [];
           complexity := simple;
           requires_order_ops := false;
           estimated_difficulty := 1;
           error_message := Some ("Error in " +:+ error_type);
           perception_notes := "Analysis failed due to " +:+ error_type |}
    end in
  let error_memory :=
    {| session_success_rate := "Error - unable to access memory";
       strategy_recommendation := conservative_approach;
       confidence_modifier := f0_5;
       similar_problems_found := 0;
       memory_insights :=
         "Memory consultation failed due to " +:+ error_type;
       recommended_approach :=
         "Conservative approach due to system error" |} in
  let error_decision :=
    {| selected_method := conservative_detailed;
       final_confidence := f0_0;
       show_working_steps := true;
       verification_level := extra;
       reasoning :=
         "System error in " +:+ error_type +:+ " - using safest approach";
       execution_strategy :=
         "Conservative detailed approach due to system error";
       risk_assessment := risk_high |} in
  let error_action :=
    {| result := "Error: " +:+ error_type;
       steps := ["Analysis failed due to " +:+ error_type];
       confidence := f0_0;
       verification := "Cannot verify due to system error";
       execution_notes := "Execution failed due to " +:+ error_type |} in
  {| expression := expression;
     perception := error_perception;
     memory := error_memory;
     decision := error_decision;
     action := error_action;
     success := false;
     timestamp := now |}.

(** [CognitiveAgent.analyze]; [now] is the clock reading stamped on
    the bundle. *)
Definition analyze (now : Z) (expression memory_summary : string)
  : M CognitiveAnalysisResult :=
  try_except
    (let! perception_result := PerceptionAgent_analyze expression in
     if negb (is_valid perception_result)
     then ret (_create_error_result now expression (Some perception_result)
                 "perception_error")
     else
       let memory_input :=
         {| mi_expression := expression;
            mi_perception_data := perception_result;
            mi_memory_summary := memory_summary |} in
       let! memory_result := MemoryAgent_consult memory_input in
       let decision_input :=
         {| di_expression := expression;
            di_perception_data := perception_result;
            di_memory_data := memory_result |} in
       let! decision_result := DecisionAgent_decide decision_input in
       let action_input :=
         {| ai_expression := expression;
            ai_perception_data := perception_result;
            ai_decision_data := decision_result |} in
       let! action_result := ActionAgent_execute action_input in
       let is_successful := negb (startswith (result action_result) "Error") in
       ret {| expression := expression;
              perception := perception_result;
              memory := memory_result;
              decision := decision_result;
              action := action_result;
              success := is_successful;
              timestamp := now |})
    (fun e =>
       ret (_create_error_result now expression None
              ("system_error: " +:+ exn_str e))).

(** The decision that [quick_solve] builds in place of a Decision
    stage. *)
Definition simple_decision : DecisionOutput :=
  {| selected_method := direct_calculation;
     final_confidence := f0_7;
     show_working_steps := false;
     verification_level := minimal;
     reasoning := "Quick solve mode - using direct calculation";
     execution_strategy := "Fast execution with basic verification";
     risk_assessment := risk_medium |}.

(** [str] of an optional field inside an f-string. *)
Definition str_option (o : option string) : string :=
  match o with Some s => s | None => "None" end.

(** [CognitiveAgent.quick_solve] *)
Definition quick_solve (expression : string) : M ActionOutput :=
  try_except
    (let! perception_result := PerceptionAgent_analyze expression in
     if negb (is_valid perception_result)
     then ret {| result :=
                   "Error: " +:+ str_option (error_message perception_result);
                 steps := ["Invalid expression"];
                 confidence := f0_0;
                 verification := "Cannot verify invalid expression";
                 execution_notes :=
                   "Expression failed perception validation" |}
     else
       let action_input :=
         {| ai_expression := expression;
            ai_perception_data := perception_result;
            ai_decision_data := simple_decision |} in
       ActionAgent_execute action_input)
    (fun e =>
       ret {| result := "Error: " +:+ exn_str e;
              steps := ["Quick solve failed"];
              confidence := f0_0;
              verification := "Cannot verify due to error";
              execution_notes :=
                "Quick solve encountered error: " +:+ exn_str e |}).

End Stages.

End Agent.

(** ** Three concrete worlds for the agent *)

Module Scenario.
Import Agent.

(** A perception, a consultation, a decision and an execution that the
    validating constructors accept for ["5 + 3"]. *)
Definition perceived : PerceptionOutput :=
  {| is_valid := true;
     operands := [inl (binary_normalize prec emax 5 0 false);
                  inl (binary_normalize prec emax 3 0 false)];
     operators := ["+"];
     complexity := simple;
     requires_order_ops := false;
     estimated_difficulty := 1;
     error_message := None;
     perception_notes := "one addition" |}.

Definition consulted : MemoryOutput :=
  {| session_success_rate := "no history";
     strategy_recommendation := standard_verification;
     confidence_modifier := tenths 8;
     similar_problems_found := 0;
     memory_insights := "fresh start";
     recommended_approach := "verify once" |}.

Definition decided : DecisionOutput :=
  {| selected_method := standard_with_check;
     final_confidence := tenths 8;
     show_working_steps := true;
     verification_level := standard;
     reasoning := "simple problem";
     execution_strategy := "add, then check";
     risk_assessment := risk_low |}.

Definition executed : ActionOutput :=
  {| result := "8";
     steps := ["5 + 3 = 8"];
     confidence := tenths 9;
     verification := "8 - 3 = 5";
     execution_notes := "direct" |}.

(** A world around an oracle and a JSON parser; its validating
    constructors accept every reply with the values above.  The replies
    of the three oracles below have no blanks around them, so [strip]
    leaves them as they are. *)
Definition world_of (o : nat -> string -> outcome string)
    (loads : string -> string + json) : world :=
  {| oracle := o;
     strip := fun s => s;
     json_loads := loads;
     repr_float := fun _ => "0.0";
     repr_container := fun _ => "[]";
     float_of_str := fun _ => None;
     not_a_mapping := fun _ => "argument after ** must be a mapping";
     _create_perception_prompt := fun e => "perceive " +:+ e;
     _create_memory_prompt := fun i => "consult " +:+ mi_expression i;
     _create_decision_prompt := fun i => "decide " +:+ di_expression i;
     _create_action_prompt := fun i => "execute " +:+ ai_expression i;
     PerceptionOutput_of := fun _ => Returned perceived;
     MemoryOutput_of := fun _ => Returned consulted;
     DecisionOutput_of := fun _ => Returned decided;
     ActionOutput_of := fun _ => Returned executed |}.

(** The oracle raises on every call. *)
Definition down : world :=
  world_of (fun _ _ => Raised (OtherError "503 service unavailable"))
           (fun _ => inr (JDict ∅)).

(** The oracle answers with text that is no JSON. *)
Definition garbled : world :=
  world_of (fun _ _ => Returned "I cannot answer that.")
           (fun _ => inl "Expecting value: line 1 column 1 (char 0)").

(** The oracle answers every call with a JSON object. *)
Definition answering : world :=
  world_of (fun _ _ => Returned "{}") (fun _ => inr (JDict ∅)).

End Scenario.

(** ** Vocabulary of the statements about binary64 values *)

Module FloatSpec.

(** A mantissa [m] at exponent [e] of value at most [2^k]. *)
Definition bounded_by (k m e : Z) : Prop :=
  0 <= m /\ e <= k /\ m <= 2 ^ (k - e).

(** A float that is [+0.0] or positive and at most 2. *)
Definition small (x : float) : Prop :=
  x = S754_zero false
  \/ exists m e, x = S754_finite false m e /\ bounded_by 1 (Z.pos m) e.

End FloatSpec.

(** ** Vocabulary of the statements about the store *)

Module StoreSpec.
Import MemoryStore.

(** The fixed key set of [operation_stats]. *)
Definition operation_keys : gset string :=
  {[ "addition"; "subtraction"; "multiplication"; "division" ]}.

(** The invariant of [MemoryStatus]: the two counters add up to the
    total, and the statistics have exactly the four keys. *)
Definition status_invariant (st : ModularMemoryStore) : Prop :=
  success_count (memory_status st) + error_count (memory_status st)
    = total_problems (memory_status st)
  /\ dom (operation_stats (memory_status st)) = operation_keys.

(** The counters count the records of the history. *)
Definition counts_history (st : ModularMemoryStore) : Prop :=
  total_problems (memory_status st) = Z.of_nat (length (session_history st))
  /\ success_count (memory_status st)
     = count_if pr_success (session_history st)
  /\ error_count (memory_status st)
     = count_if (fun r => negb (pr_success r)) (session_history st)
  /\ dom (operation_stats (memory_status st)) = operation_keys.

(** One more occurrence under [key]. *)
Definition incr (key : string) (d : gmap string Z) : gmap string Z :=
  match d !! key with
  | Some n => <[key := n + 1]> d
  | None => d
  end.

Definition bump (b : bool) (key : string) (d : gmap string Z)
  : gmap string Z :=
  if b then incr key d else d.

(** The statistics once a problem text has been counted. *)
Definition stats_after (problem : string) (d : gmap string Z)
  : gmap string Z :=
  bump (str_in "/" problem || str_in "÷" problem) "division"
    (bump (str_in "*" problem || str_in "×" problem
           || str_in "x" (lower problem)) "multiplication"
       (bump (str_in "-" problem) "subtraction"
          (bump (str_in "+" problem) "addition" d))).

(** The store in which the first three statements of [store_result]
    have run: record appended, counters stepped. *)
Definition counted (now : Z) (request : StoreResultRequest)
    (st : ModularMemoryStore) : ModularMemoryStore :=
  let ms := memory_status st in
  {| session_history := session_history st ++ [record_of (now, request)];
     memory_status :=
       {| total_problems := total_problems ms + 1;
          success_count :=
            if req_success request then success_count ms + 1
            else success_count ms;
          error_count :=
            if req_success request then error_count ms
            else error_count ms + 1;
          success_rate := success_rate ms;
          operation_stats := operation_stats ms;
          recent_history := recent_history ms |} |}.

(** The store when [store_result] has run to its end, the rate text
    being [rate]. *)
Definition stored (now : Z) (request : StoreResultRequest) (rate : string)
    (st : ModularMemoryStore) : ModularMemoryStore :=
  let c := counted now request st in
  {| session_history := session_history c;
     memory_status :=
       {| total_problems := total_problems (memory_status c);
          success_count := success_count (memory_status c);
          error_count := error_count (memory_status c);
          success_rate := rate;
          operation_stats :=
            stats_after (req_problem request)
                        (operation_stats (memory_status c));
          recent_history := slice_from (-10) (session_history c) |} |}.

(** A text with exactly one decimal place: digits, a point, one digit. *)
Definition one_decimal (s : string) : Prop :=
  exists n : Z, 0 <= n /\ s = str_int (n / 10) +:+ "." +:+ str_int (n mod 10).

(** The rate as the specification words it: [round(100*S/N, 1)] shown
    with one decimal place and a percent sign. *)
Definition rate_as_specified (S N : Z) : outcome string :=
  match truediv (100 * S) N with
  | Returned x => Returned (format_1f x +:+ "%")
  | Raised e => Raised e
  end.

(** [n] requests for the problem ["1+1"], successful or not. *)
Definition requests (n : nat) (ok : bool) : list (Z * StoreResultRequest) :=
  repeat (0, {| req_problem := "1+1"; req_result := "2";
                req_success := ok; req_strategy_used := None;
                req_confidence := None |}) n.

(** The store with its statistics replaced. *)
Definition with_stats (d : gmap string Z) (st : ModularMemoryStore) : ModularMemoryStore :=
  {| session_history := session_history st;
     memory_status := with_operation_stats d (memory_status st) |}.

(** The value that [store_result] returns. *)
Definition response_of (request : StoreResultRequest) (total : Z) : StoreResultResponse :=
  {| resp_status := "Result stored successfully";
     resp_problem := req_problem request;
     resp_result := req_result request;
     resp_success := req_success request;
     resp_total_problems := total |}.

End StoreSpec.

(** ** Vocabulary of the statements about the agent *)

Module AgentSpec.
Import Agent.

Section Vocabulary.

Variable W : world.

(** What a stage hands on: the validated reply, or its fallback. *)
Definition settle {A : Type} (o : outcome A) (fallback : string -> A) : A :=
  match o with
  | Returned a => a
  | Raised e => fallback (exn_str e)
  end.

(** The reply of the oracle to a call made after [l], parsed. *)
Definition parsed_reply (l : log) (prompt : string) : outcome json :=
  match oracle W (length l) prompt with
  | Returned text => _parse_llm_response W text
  | Raised e => Raised e
  end.

Definition and_then {A B : Type} (o : outcome A) (k : A -> outcome B)
  : outcome B :=
  match o with
  | Returned a => k a
  | Raised e => Raised e
  end.

(** The coercion of the Action stage on a parsed reply. *)
Definition coerced (d : json) : outcome (gmap string json) :=
  match d with
  | JDict d => _validate_and_fix_result W d
  | other => Raised (TypeError (not_a_mapping W other))
  end.

(** What the coercion makes of a value: [str] of it, a list of
    strings, a confidence between 0 and 1. *)
Definition stringify (v : json) : json := JStr (py_str W v).

Definition listify (v : json) : json :=
  match v with
  | JList l => JList (map stringify l)
  | other => JList [stringify other]
  end.

Definition clamp_or_default (v : json) : json :=
  match py_float W v with
  | Returned x => JFloat (py_max f0_0 (py_min f1_0 x))
  | Raised _ => JFloat f0_5
  end.

End Vocabulary.

End AgentSpec.

(** ** The client ([Core_Agent/client.py]): the agent and the store in
       one loop *)

Module Client.
#[local] Set Warnings "-notation-overridden".
Import MemoryStore Agent.

(** The text of a [Literal] method name, as it is sent to the store. *)
Definition Method_str (m : Method) : string :=
  match m with
  | direct_calculation => "direct_calculation"
  | standard_with_check => "standard_with_check"
  | step_by_step_verification => "step_by_step_verification"
  | conservative_detailed => "conservative_detailed"
  end.

(** [memory_data.get("summary", "No memory available")] on the parsed
    reply of a tool: only the reply of [get_memory_summary] has the key.
    The session hands a tool call to the server's [call_tool] and brings
    its reply back; the transport itself is not modelled. *)
Definition summary_of_reply (r : reply) : string :=
  match r with
  | reply_summary s => summary s
  | _ => "No memory available"
  end.

(** The arguments that [_store_result] sends for a bundle. *)
Definition request_of_bundle (cognitive_result : CognitiveAnalysisResult)
  : StoreResultRequest :=
  {| req_problem := expression cognitive_result;
     req_result := result (action cognitive_result);
     req_success := success cognitive_result;
     req_strategy_used :=
       Some (Method_str (selected_method (decision cognitive_result)));
     req_confidence := Some (confidence (action cognitive_result)) |}.

(** [ModularMathClient._store_result]; [now] is the server's clock
    reading.  The reply is not looked at. *)
Definition _store_result (now : Z) (cognitive_result : CognitiveAnalysisResult)
    (st : ModularMemoryStore) : ModularMemoryStore :=
  snd (call_tool (tool_store_result now (request_of_bundle cognitive_result)) st).

(** [ModularMathClient._show_memory_impact]: two tools are called and
    their replies printed. *)
Definition _show_memory_impact (st : ModularMemoryStore) : ModularMemoryStore :=
  let st1 := snd (call_tool tool_get_memory_status st) in
  snd (call_tool (tool_get_recent_history (Some 3)) st1).

(** [ModularMathClient.solve_with_complete_cognitive_analysis], on the
    store [st] and after the oracle calls [l]; [None] is the value
    returned from the [except] branch. *)
Definition solve_with_complete_cognitive_analysis (W : world)
    (now_bundle now_record : Z) (expression : string)
    (st : ModularMemoryStore) (l : log)
  : option CognitiveAnalysisResult * ModularMemoryStore * log :=
  let '(memory_result, st1) := call_tool tool_get_memory_summary st in
  let memory_summary := summary_of_reply memory_result in
  match analyze W now_bundle expression memory_summary l with
  | (Returned cognitive_result, l1) =>
      let st2 := _store_result now_record cognitive_result st1 in
      let st3 := _show_memory_impact st2 in
      (Some cognitive_result, st3, l1)
  | (Raised _, l1) => (None, st1, l1)
  end.

(** [ModularMathClient.simple_solve] *)
Definition simple_solve (W : world) (now : Z) (expression : string)
    (st : ModularMemoryStore) (l : log)
  : option ActionOutput * ModularMemoryStore * log :=
  match quick_solve W expression l with
  | (Returned action_result, l1) =>
      let is_success := negb (startswith (result action_result) "Error") in
      let st1 :=
        snd (call_tool
               (tool_store_result now
                  {| req_problem := expression;
                     req_result := result action_result;
                     req_success := is_success;
                     req_strategy_used := Some "quick_solve";
                     req_confidence := Some (confidence action_result) |})
               st) in
      (Some action_result, st1, l1)
  | (Raised _, l1) => (None, st, l1)
  end.

End Client.

(** ** Further vocabulary *)

Module MoreSpec.
#[local] Set Warnings "-notation-overridden".
Import MemoryStore Agent.

(** The four substring tests of [_update_operation_stats]. *)
Definition has_addition (problem : string) : bool := str_in "+" problem.
Definition has_subtraction (problem : string) : bool := str_in "-" problem.
Definition has_multiplication (problem : string) : bool :=
  str_in "*" problem || str_in "×" problem || str_in "x" (lower problem).
Definition has_division (problem : string) : bool :=
  str_in "/" problem || str_in "÷" problem.

(** How many records of a history pass a test on their problem text. *)
Definition occurrences (test : string -> bool) (h : list ProblemResult) : Z :=
  count_if (fun r => test (pr_problem r)) h.

(** The call that stores a request. *)
Definition store_call (r : Z * StoreResultRequest) : tool :=
  tool_store_result (fst r) (snd r).




(** What the coercion of the Action stage makes of the value under a
    key. *)
Definition coerce_field (W : world) (key : string) (v : json) : json :=
  if decide (key = "result") then AgentSpec.stringify W v
  else if decide (key = "steps") then AgentSpec.listify W v
  else if decide (key = "confidence") then AgentSpec.clamp_or_default W v
  else if decide (key = "verification") then AgentSpec.stringify W v
  else if decide (key = "execution_notes") then AgentSpec.stringify W v
  else v.

End MoreSpec.

(** ** Two more worlds for the agent *)

Module MoreScenario.
Import Agent Scenario.

(** The oracle answers the first call of a run and raises on every later
    one. *)
Definition memory_down : world :=
  world_of (fun n _ => if (n =? 0)%nat then Returned "{}"
                       else Raised (OtherError "429 quota exceeded"))
           (fun _ => inr (JDict ∅)).

Definition quote : string := String (ascii_of_nat 34) "".

(** A reply whose confidence is the integer [10**400], and the world in
    which the oracle gives it. *)
Definition huge_confidence_reply : string :=
  "{" +:+ quote +:+ "confidence" +:+ quote +:+ ": " +:+ str_int (10 ^ 400)
  +:+ "}".

Definition overconfident : world :=
  world_of (fun _ _ => Returned huge_confidence_reply)
           (fun s => if String.eqb s huge_confidence_reply
                     then inr (JDict {[ "confidence" := JInt (10 ^ 400) ]})
                     else inl "Expecting value: line 1 column 1 (char 0)").

(** An Action input for ["5 + 3"]. *)
Definition action_input : ActionInput :=
  {| ai_expression := "5 + 3";
     ai_perception_data := perceived;
     ai_decision_data := decided |}.

End MoreScenario.

(** * Properties *)

(** ** binary64 rounding never overflows on a bounded value *)

Module PyFacts.
Import FloatSpec.

Lemma digits2_pos_size (p : positive) : digits2_pos p = Pos.size p.
Proof. induction p; simpl; congruence. Qed.

(** A mantissa below [2^k] has at most [k] binary digits. *)
Lemma Zdigits2_le (m k : Z) : 0 <= m < 2 ^ k -> 0 <= k -> Zdigits2 m <= k.
Proof.
  intros [Hm Hlt] Hk. destruct m as [|p|p]; simpl; [lia | | lia].
  rewrite digits2_pos_size.
  assert (H := Pos.size_le p).
  assert (H2 : 2 ^ Z.pos (Pos.size p) <= 2 * Z.pos p).
  { change 2 with (Z.pos 2) at 1. rewrite <- Pos2Z.inj_pow. lia. }
  destruct (Z_lt_le_dec k (Z.pos (Pos.size p))) as [Hgt|]; [|assumption].
  exfalso.
  assert (2 ^ (k + 1) <= 2 ^ Z.pos (Pos.size p))
    by (apply Z.pow_le_mono_r; lia).
  rewrite Z.pow_add_r in H0 by lia. lia.
Qed.

Lemma shr_1_m (mrs : shr_record) :
  0 <= shr_m mrs -> shr_m (shr_1 mrs) = shr_m mrs / 2.
Proof.
  destruct mrs as [m r s]. simpl. intros Hm.
  destruct m as [|[p|p|]|p]; simpl; try lia.
  - reflexivity.
  - apply (Z.div_unique (Z.pos p~1) 2 (Z.pos p) 1); lia.
  - apply (Z.div_unique (Z.pos p~0) 2 (Z.pos p) 0); lia.
  - reflexivity.
Qed.

Lemma pow2_xO (p : positive) : 2 ^ Z.pos p~0 = 2 ^ Z.pos p * 2 ^ Z.pos p.
Proof.
  replace (Z.pos p~0) with (Z.pos p + Z.pos p) by lia.
  apply Z.pow_add_r; lia.
Qed.

Lemma pow2_xI (p : positive) :
  2 ^ Z.pos p~1 = 2 * (2 ^ Z.pos p * 2 ^ Z.pos p).
Proof.
  replace (Z.pos p~1) with (1 + (Z.pos p + Z.pos p)) by lia.
  rewrite !Z.pow_add_r by lia. reflexivity.
Qed.

(** Shifting right [p] times divides the mantissa by [2^p]. *)
Lemma iter_shr_1_m (p : positive) :
  forall mrs, 0 <= shr_m mrs ->
    shr_m (SpecFloat.iter_pos shr_1 p mrs) = shr_m mrs / 2 ^ Z.pos p.
Proof.
  induction p as [p IH|p IH|]; intros mrs Hm; simpl SpecFloat.iter_pos.
  - assert (H1 : 0 <= shr_m (shr_1 mrs))
      by (rewrite shr_1_m by lia; apply Z.div_pos; lia).
    assert (H2 : 0 <= shr_m (SpecFloat.iter_pos shr_1 p (shr_1 mrs)))
      by (rewrite IH by lia; apply Z.div_pos; lia).
    rewrite IH, IH, shr_1_m by lia.
    rewrite !Z.div_div by lia.
    f_equal. rewrite pow2_xI. ring.
  - assert (H2 : 0 <= shr_m (SpecFloat.iter_pos shr_1 p mrs))
      by (rewrite IH by lia; apply Z.div_pos; lia).
    rewrite IH, IH by lia.
    rewrite !Z.div_div by lia.
    f_equal. rewrite pow2_xO. ring.
  - rewrite shr_1_m by lia. reflexivity.
Qed.

Lemma shr_record_of_loc_m (m : Z) (l : location) :
  shr_m (shr_record_of_loc m l) = m.
Proof. destruct l as [|[]]; reflexivity. Qed.

Lemma shr_fexp_bounded (k m e : Z) (l : location) :
  -1074 <= k -> bounded_by k m e ->
  bounded_by k (shr_m (fst (shr_fexp prec emax m e l)))
               (snd (shr_fexp prec emax m e l)).
Proof.
  intros Hk (Hm & He & Hle). unfold shr_fexp, shr.
  assert (Hd : Zdigits2 m + e <= k + 1).
  { assert (Zdigits2 m <= k - e + 1); [|lia].
    apply Zdigits2_le; [|lia]. split; [lia|].
    rewrite Z.pow_add_r by lia. change (2 ^ 1) with 2.
    assert (0 < 2 ^ (k - e)) by (apply Z.pow_pos_nonneg; lia). lia. }
  assert (Hf : fexp prec emax (Zdigits2 m + e) <= k).
  { unfold fexp, SpecFloat.emin, prec, emax. lia. }
  destruct (fexp prec emax (Zdigits2 m + e) - e) as [|n|n] eqn:Hn; simpl;
    try (rewrite shr_record_of_loc_m; repeat split; assumption).
  rewrite iter_shr_1_m by (rewrite shr_record_of_loc_m; lia).
  rewrite shr_record_of_loc_m.
  repeat split; [apply Z.div_pos; lia | lia |].
  replace (k - e) with ((k - (e + Z.pos n)) + Z.pos n) in Hle by lia.
  rewrite Z.pow_add_r in Hle by lia.
  apply Z.div_le_upper_bound; [lia|]. lia.
Qed.

Lemma round_nearest_even_bounded (k m e : Z) (l : location) :
  bounded_by k m e -> bounded_by (k + 1) (round_nearest_even m l) e.
Proof.
  intros (Hm & He & Hle).
  assert (Hp : 2 ^ (k + 1 - e) = 2 * 2 ^ (k - e)).
  { replace (k + 1 - e) with (1 + (k - e)) by lia.
    rewrite Z.pow_add_r by lia. reflexivity. }
  assert (0 < 2 ^ (k - e)) by (apply Z.pow_pos_nonneg; lia).
  unfold bounded_by. rewrite Hp.
  destruct l as [|[]]; simpl; try destruct (Z.even m); lia.
Qed.

(** Rounding a value of at most [2^k] gives zero or a finite float of
    at most [2^(k+1)]. *)
Lemma binary_round_aux_bounded (k : Z) (sx : bool) (m e : Z) (l : location) :
  -1074 <= k -> k + 1 <= 971 -> bounded_by k m e ->
  binary_round_aux prec emax sx m e l = S754_zero sx
  \/ exists m' e', binary_round_aux prec emax sx m e l = S754_finite sx m' e'
                   /\ bounded_by (k + 1) (Z.pos m') e'.
Proof.
  intros Hk Hk' Hb. unfold binary_round_aux.
  assert (H1 := shr_fexp_bounded k m e l Hk Hb).
  destruct (shr_fexp prec emax m e l) as [mrs1 e1]. simpl in H1.
  assert (H2 := round_nearest_even_bounded k _ _ (loc_of_shr_record mrs1) H1).
  assert (H3 := shr_fexp_bounded (k + 1) _ _ loc_Exact ltac:(lia) H2).
  destruct (shr_fexp prec emax (round_nearest_even (shr_m mrs1)
              (loc_of_shr_record mrs1)) e1 loc_Exact) as [mrs2 e2].
  simpl in H3. destruct H3 as (Hm & He & Hle).
  destruct (shr_m mrs2) as [|p|p]; [left; reflexivity | | lia].
  right. exists p, e2.
  replace (e2 <=? emax - prec) with true
    by (symmetry; apply Z.leb_le; unfold emax, prec; lia).
  split; [reflexivity|]. repeat split; assumption.
Qed.

Lemma SFdiv_core_binary_bounded (m1 m2 : positive) :
  (m1 <= m2)%positive ->
  bounded_by 0 (fst (fst (SFdiv_core_binary prec emax (Z.pos m1) 0 (Z.pos m2) 0)))
               (snd (fst (SFdiv_core_binary prec emax (Z.pos m1) 0 (Z.pos m2) 0))).
Proof.
  intros Hle. unfold SFdiv_core_binary.
  set (e' := Z.min _ _).
  assert (He : e' <= 0) by (subst e'; change (0 - 0) with 0; apply Z.le_min_r).
  set (m' := match 0 - 0 - e' with Z0 => Z.pos m1 | Z.pos _ => Z.shiftl (Z.pos m1) (0 - 0 - e') | Z.neg _ => 0 end).
  assert (Hm' : 0 <= m' <= Z.pos m2 * 2 ^ (0 - e')).
  { subst m'. change (0 - 0 - e') with (0 - e').
    destruct (0 - e') as [|s|s] eqn:Hs.
    - simpl. lia.
    - rewrite Z.shiftl_mul_pow2 by lia.
      assert (0 < 2 ^ Z.pos s) by (apply Z.pow_pos_nonneg; lia). nia.
    - lia. }
  assert (Hq : Z.div_eucl m' (Z.pos m2) = (m' / Z.pos m2, m' mod Z.pos m2)).
  { unfold Z.div, Z.modulo. destruct (Z.div_eucl m' (Z.pos m2)); reflexivity. }
  rewrite Hq. simpl fst. simpl snd.
  repeat split.
  - apply Z.div_pos; lia.
  - assumption.
  - apply Z.div_le_upper_bound; lia.
Qed.

(** Dividing a count by a total that is at least as large never
    overflows. *)
Lemma truediv_returns (s t : Z) :
  0 <= s <= t -> 0 < t ->
  exists q, truediv s t = Returned q /\ small q.
Proof.
  intros [Hs Hst] Ht. unfold truediv.
  replace (t =? 0) with false by (symmetry; apply Z.eqb_neq; lia).
  destruct t as [|mt|mt]; try lia.
  destruct s as [|ms|ms]; try lia.
  - exists (S754_zero false). split; [reflexivity | left; reflexivity].
  - simpl int_operand. unfold fdiv, SFdiv.
    assert (Hb := SFdiv_core_binary_bounded ms mt ltac:(lia)).
    destruct (SFdiv_core_binary prec emax (Z.pos ms) 0 (Z.pos mt) 0) as [[mz ez] lz].
    simpl in Hb. simpl xorb.
    destruct (binary_round_aux_bounded 0 false mz ez lz ltac:(lia) ltac:(lia) Hb)
      as [E | (m' & e' & E & Hb')]; rewrite E; simpl.
    + eexists. split; [reflexivity | left; reflexivity].
    + eexists. split; [reflexivity | right; eauto].
Qed.

Lemma fmul_100_finite (q : float) : small q ->
  fmul q f100 = S754_zero false \/ exists m e, fmul q f100 = S754_finite false m e.
Proof.
  intros [-> | (m & e & -> & Hm & He & Hle)].
  - left. reflexivity.
  - change f100 with (S754_finite false 7036874417766400 (-46)).
    unfold fmul, SFmul. simpl xorb.
    assert (Hb : bounded_by 8 (Z.pos (m * 7036874417766400)) (e + -46)).
    { repeat split; [lia | lia |].
      rewrite Pos2Z.inj_mul.
      replace (8 - (e + -46)) with ((1 - e) + 53) by lia.
      rewrite Z.pow_add_r by lia.
      change (2 ^ 53) with 9007199254740992.
      assert (0 < 2 ^ (1 - e)) by (apply Z.pow_pos_nonneg; lia). nia. }
    destruct (binary_round_aux_bounded 8 false _ _ loc_Exact ltac:(lia) ltac:(lia) Hb)
      as [E | (m' & e' & E & _)]; rewrite E; eauto.
Qed.

Lemma div_half_even_nonneg (a b : Z) : 0 <= a -> 0 < b -> 0 <= div_half_even a b.
Proof.
  intros Ha Hb. unfold div_half_even.
  assert (0 <= a / b) by (apply Z.div_pos; lia).
  destruct (2 * (a mod b) ?= b); try destruct (Z.even (a / b)); lia.
Qed.

Lemma format_1f_one_decimal (x : float) :
  x = S754_zero false \/ (exists m e, x = S754_finite false m e) ->
  StoreSpec.one_decimal (format_1f x).
Proof.
  intros [-> | (m & e & ->)].
  - exists 0. split; [lia | reflexivity].
  - unfold format_1f.
    set (n := if 0 <=? e then _ else _).
    exists n. split; [| reflexivity].
    subst n. destruct (0 <=? e) eqn:He.
    + apply Z.leb_le in He. assert (0 < 2 ^ e) by (apply Z.pow_pos_nonneg; lia). nia.
    + apply Z.leb_gt in He. apply div_half_even_nonneg; [lia|].
      apply Z.pow_pos_nonneg; lia.
Qed.

End PyFacts.

(** ** The session memory store *)

Module StoreFacts.
Import FloatSpec PyFacts MemoryStore StoreSpec.

Lemma keys_present (d : gmap string Z) :
  dom d = operation_keys ->
  forall k, k ∈ operation_keys -> is_Some (d !! k).
Proof. intros Hd k Hk. apply elem_of_dom. rewrite Hd. exact Hk. Qed.

Lemma dom_incr (key : string) (d : gmap string Z) : dom (incr key d) = dom d.
Proof.
  unfold incr. destruct (d !! key) eqn:E; [|reflexivity].
  apply dom_insert_lookup_L. rewrite E. eauto.
Qed.

Lemma dom_bump b key (d : gmap string Z) : dom (bump b key d) = dom d.
Proof. destruct b; [apply dom_incr | reflexivity]. Qed.

Lemma dom_stats_after problem (d : gmap string Z) : dom (stats_after problem d) = dom d.
Proof. unfold stats_after. rewrite !dom_bump. reflexivity. Qed.

Lemma incr_stat_run (key : string) (st : ModularMemoryStore) :
  is_Some (operation_stats (memory_status st) !! key) ->
  incr_stat key st
  = (Returned (), with_stats (incr key (operation_stats (memory_status st))) st).
Proof.
  intros [n Hn]. unfold incr_stat, bind, get, set_status, modify, with_stats, incr.
  rewrite Hn. reflexivity.
Qed.

Lemma when_incr_run (b : bool) (key : string) (st : ModularMemoryStore) :
  is_Some (operation_stats (memory_status st) !! key) ->
  when b (incr_stat key) st
  = (Returned (), with_stats (bump b key (operation_stats (memory_status st))) st).
Proof.
  intros H. destruct b; simpl.
  - apply incr_stat_run, H.
  - unfold ret, with_stats, with_operation_stats. destruct st as [h []]; reflexivity.
Qed.

Lemma update_stats_run (problem : string) (st : ModularMemoryStore) :
  dom (operation_stats (memory_status st)) = operation_keys ->
  _update_operation_stats problem st
  = (Returned (), with_stats (stats_after problem (operation_stats (memory_status st))) st).
Proof.
  intros Hd. unfold _update_operation_stats, stats_after.
  assert (Hk : forall d : gmap string Z, dom d = operation_keys ->
               forall k, k ∈ operation_keys -> is_Some (d !! k))
    by exact keys_present.
  unfold bind at 1. rewrite when_incr_run by (apply Hk; [assumption | set_solver]).
  unfold bind at 1. rewrite when_incr_run
    by (apply Hk; [simpl; rewrite dom_bump; assumption | set_solver]).
  unfold bind at 1. rewrite when_incr_run
    by (apply Hk; [simpl; rewrite !dom_bump; assumption | set_solver]).
  rewrite when_incr_run
    by (apply Hk; [simpl; rewrite !dom_bump; assumption | set_solver]).
  reflexivity.
Qed.

Lemma store_result_run now request (st : ModularMemoryStore) :
  dom (operation_stats (memory_status st)) = operation_keys ->
  store_result now request st =
    let c := counted now request st in
    match truediv (success_count (memory_status c)) (total_problems (memory_status c)) with
    | Returned q =>
        (Returned (response_of request (total_problems (memory_status st) + 1)),
         stored now request (format_1f (fmul q f100) +:+ "%") st)
    | Raised e => (Raised e, c)
    end.
Proof.
  intros Hd. destruct request as [p r ok sg cf].
  unfold store_result, counted, stored, record_of, response_of.
  destruct ok;
    cbn -[truediv fmul format_1f _update_operation_stats slice_from f100];
    (destruct (truediv _ _) as [q|e]; [|reflexivity]);
    cbn -[truediv fmul format_1f _update_operation_stats slice_from f100];
    unfold bind at 1; rewrite update_stats_run by exact Hd;
    reflexivity.
Qed.

(** Counting *)
Lemma count_if_nil {A} (p : A -> bool) : count_if p [] = 0.
Proof. reflexivity. Qed.

Lemma count_if_cons {A} (p : A -> bool) (x : A) (l : list A) :
  count_if p (x :: l) = (if p x then 1 else 0) + count_if p l.
Proof.
  unfold count_if. destruct (p x) eqn:E.
  - rewrite filter_cons_True by assumption. simpl length. lia.
  - rewrite filter_cons_False by congruence. lia.
Qed.

Lemma count_if_app {A} (p : A -> bool) (l1 l2 : list A) :
  count_if p (l1 ++ l2) = count_if p l1 + count_if p l2.
Proof.
  induction l1 as [|x l1 IH]; [reflexivity|].
  change ((x :: l1) ++ l2) with (x :: (l1 ++ l2)).
  rewrite !count_if_cons, IH. lia.
Qed.

Lemma count_if_bounds {A} (p : A -> bool) (l : list A) :
  0 <= count_if p l <= Z.of_nat (length l).
Proof.
  induction l as [|x l IH]; [rewrite count_if_nil; simpl; lia|].
  rewrite count_if_cons. simpl length. destruct (p x); lia.
Qed.

Lemma count_if_negb {A} (p : A -> bool) (l : list A) :
  count_if (fun x => negb (p x)) l = Z.of_nat (length l) - count_if p l.
Proof.
  induction l as [|x l IH]; [reflexivity|].
  rewrite !count_if_cons, IH. simpl length. destruct (p x); simpl; lia.
Qed.

Lemma count_if_map {A B} (f : A -> B) (p : B -> bool) (l : list A) :
  count_if p (map f l) = count_if (fun x => p (f x)) l.
Proof.
  induction l as [|x l IH]; [reflexivity|].
  simpl map. rewrite !count_if_cons, IH. reflexivity.
Qed.

(** Slices *)
Lemma slice_from_0 {A} (l : list A) : slice_from 0 l = l.
Proof.
  unfold slice_from. simpl (0 <? 0).
  rewrite Z.min_l by lia. reflexivity.
Qed.

Lemma slice_from_last {A} (k : nat) (l : list A) :
  (0 < k)%nat -> (k <= length l)%nat ->
  slice_from (- Z.of_nat k) l = drop (length l - k) l.
Proof.
  intros Hk Hl. unfold slice_from.
  replace (- Z.of_nat k <? 0) with true by (symmetry; apply Z.ltb_lt; lia).
  rewrite Z.max_l by lia. f_equal. lia.
Qed.

Lemma slice_from_short {A} (k : nat) (l : list A) :
  (0 < k)%nat -> (length l <= k)%nat -> slice_from (- Z.of_nat k) l = l.
Proof.
  intros Hk Hl. unfold slice_from.
  replace (- Z.of_nat k <? 0) with true by (symmetry; apply Z.ltb_lt; lia).
  rewrite Z.max_r by lia. reflexivity.
Qed.

(** store on a store whose counters count its history *)
Lemma counted_counts now request st :
  counts_history st ->
  let c := counted now request st in
  total_problems (memory_status c) = Z.of_nat (length (session_history c))
  /\ success_count (memory_status c) = count_if pr_success (session_history c)
  /\ error_count (memory_status c)
     = count_if (fun r => negb (pr_success r)) (session_history c).
Proof.
  intros (Ht & Hs & He & _). unfold counted. cbn [memory_status session_history
    total_problems success_count error_count].
  rewrite !count_if_app, length_app, !count_if_cons, !count_if_nil.
  cbn [record_of pr_success snd length]. rewrite Ht, Hs, He.
  destruct (req_success request); simpl; lia.
Qed.

Lemma store_result_counts now request st :
  counts_history st ->
  exists q,
    truediv (count_if pr_success (session_history st ++ [record_of (now, request)]))
            (Z.of_nat (length (session_history st)) + 1) = Returned q
    /\ small q
    /\ store_result now request st
       = (Returned (response_of request (total_problems (memory_status st) + 1)),
          stored now request (format_1f (fmul q f100) +:+ "%") st)
    /\ counts_history (stored now request (format_1f (fmul q f100) +:+ "%") st).
Proof.
  intros Hc. destruct (counted_counts now request st Hc) as (Ht & Hs & He).
  destruct Hc as (Ht0 & Hs0 & He0 & Hd).
  assert (Hlen : Z.of_nat (length (session_history (counted now request st)))
                 = Z.of_nat (length (session_history st)) + 1).
  { unfold counted. cbn [session_history]. rewrite length_app. simpl. lia. }
  assert (Hb := count_if_bounds pr_success (session_history (counted now request st))).
  destruct (truediv_returns
              (count_if pr_success (session_history (counted now request st)))
              (Z.of_nat (length (session_history (counted now request st)))))
    as (q & Hq & Hsmall); [lia | lia |].
  exists q. split; [|split; [exact Hsmall|]].
  - rewrite <- Hlen. exact Hq.
  - rewrite store_result_run by exact Hd. cbv zeta. rewrite Hs, Ht, Hq.
    split; [reflexivity|].
    unfold counts_history, stored. cbn [memory_status session_history
      total_problems success_count error_count operation_stats].
    rewrite dom_stats_after. auto.
Qed.

Lemma call_tool_store now request st :
  call_tool (tool_store_result now request) st
  = match store_result now request st with
    | (Returned r, st') => (reply_stored r, st')
    | (Raised e, st') => (reply_error e, st')
    end.
Proof. reflexivity. Qed.

Lemma run_tools_snoc ts t st :
  run_tools (ts ++ [t]) st = snd (call_tool t (run_tools ts st)).
Proof. unfold run_tools. rewrite fold_left_app. reflexivity. Qed.

Lemma store_all_snoc reqs r :
  store_all (reqs ++ [r])
  = snd (call_tool (tool_store_result (fst r) (snd r)) (store_all reqs)).
Proof. unfold store_all. rewrite map_app. apply run_tools_snoc. Qed.

Lemma counts_history_init : counts_history init.
Proof. repeat split. Qed.

Lemma store_all_history reqs :
  counts_history (store_all reqs)
  /\ session_history (store_all reqs) = map record_of reqs.
Proof.
  induction reqs as [|r reqs [IHc IHh]] using rev_ind.
  - split; [apply counts_history_init | reflexivity].
  - rewrite store_all_snoc, call_tool_store.
    destruct (store_result_counts (fst r) (snd r) _ IHc) as (q & _ & _ & -> & Hc).
    split; [exact Hc|].
    cbn [snd stored counted session_history]. rewrite IHh, map_app.
    destruct r; reflexivity.
Qed.

(** C3, as amended: after N >= 1 calls of [store_result] on a fresh store,
    S of them with [success=true], the status has [total_problems = N],
    [success_count = S], [error_count = N - S], and [success_rate] is
    the binary64 value of [(S / N) * 100] (the quotient is rounded first,
    then the product; the division cannot fail) shown by [.1f] with
    exactly one decimal place, followed by a percent sign. *)
Theorem store_counts_and_rate (reqs : list (Z * StoreResultRequest)) :
  (1 <= length reqs)%nat ->
  let st := memory_status (store_all reqs) in
  let N := Z.of_nat (length reqs) in
  let S := count_if (fun r => req_success (snd r)) reqs in
  total_problems st = N
  /\ success_count st = S
  /\ error_count st = N - S
  /\ exists q, truediv S N = Returned q
       /\ success_rate st = format_1f (fmul q f100) +:+ "%"
       /\ one_decimal (format_1f (fmul q f100)).
Proof.
  intros Hlen. cbv zeta.
  destruct (store_all_history reqs) as ((Ht & Hs & He & _) & Hh).
  rewrite Ht, Hs, He, Hh, count_if_negb, !count_if_map, !length_map.
  cbn [record_of pr_success].
  split; [reflexivity|]. split; [reflexivity|]. split; [reflexivity|].
  clear Ht Hs He Hh.
  assert (Hne : reqs <> []) by (destruct reqs; [simpl in Hlen; lia | discriminate]).
  destruct (exists_last Hne) as (reqs' & r & ->). clear Hne Hlen.
  rewrite store_all_snoc, call_tool_store.
  destruct (store_all_history reqs') as (Hc & Hh').
  destruct (store_result_counts (fst r) (snd r) _ Hc) as (q & Hq & Hsm & -> & _).
  exists q. rewrite Hh' in Hq.
  replace (record_of (r.1, r.2)) with (record_of r) in Hq by (destruct r; reflexivity).
  change [record_of r] with (map record_of [r]) in Hq.
  rewrite <- map_app, count_if_map, length_map in Hq.
  cbn [record_of pr_success] in Hq.
  split; [|split].
  - rewrite length_app. simpl length.
    replace (Z.of_nat (length reqs' + 1)) with (Z.of_nat (length reqs') + 1) by lia.
    exact Hq.
  - reflexivity.
  - apply format_1f_one_decimal, fmul_100_finite, Hsm.
Qed.

Lemma store_all_last reqs r :
  exists rate,
    store_all (reqs ++ [r]) = stored (fst r) (snd r) rate (store_all reqs).
Proof.
  rewrite store_all_snoc, call_tool_store.
  destruct (store_all_history reqs) as (Hc & _).
  destruct (store_result_counts (fst r) (snd r) _ Hc) as (q & _ & _ & -> & _).
  eexists. reflexivity.
Qed.

Lemma store_all_stats reqs :
  operation_stats (memory_status (store_all reqs))
  = fold_left (fun d r => stats_after (req_problem (snd r)) d) reqs
              (operation_stats MemoryStatus_default).
Proof.
  induction reqs as [|r reqs IH] using rev_ind; [reflexivity|].
  destruct (store_all_last reqs r) as (rate & ->).
  rewrite fold_left_app. cbn [fold_left stored counted memory_status operation_stats].
  rewrite IH. reflexivity.
Qed.

(** C6: after 15 calls of [store_result] on a fresh store,
    [recent_history] has length 10 and holds the last 10 stored records
    in the order in which they were stored, while the history, the three
    counters and the operation statistics cover all 15. *)
Theorem recent_history_window (reqs : list (Z * StoreResultRequest)) :
  length reqs = 15%nat ->
  let st := store_all reqs in
  recent_history (memory_status st) = drop 5 (map record_of reqs)
  /\ length (recent_history (memory_status st)) = 10%nat
  /\ session_history st = map record_of reqs
  /\ total_problems (memory_status st) = 15
  /\ success_count (memory_status st)
     = count_if (fun r => req_success (snd r)) reqs
  /\ error_count (memory_status st)
     = 15 - count_if (fun r => req_success (snd r)) reqs
  /\ operation_stats (memory_status st)
     = fold_left (fun d r => stats_after (req_problem (snd r)) d) reqs
                 (operation_stats MemoryStatus_default).
Proof.
  intros Hlen. cbv zeta.
  destruct (store_all_history reqs) as ((Ht & Hs & He & _) & Hh).
  assert (Hrecent : recent_history (memory_status (store_all reqs))
                    = drop 5 (map record_of reqs)).
  { assert (Hne : reqs <> []) by (destruct reqs; [discriminate Hlen | discriminate]).
    destruct (exists_last Hne) as (reqs' & r & E).
    destruct (store_all_last reqs' r) as (rate & Hst).
    rewrite <- E in Hst. rewrite Hst.
    cbn [stored memory_status recent_history].
    change (session_history (counted r.1 r.2 (store_all reqs')))
      with (session_history (stored r.1 r.2 rate (store_all reqs'))).
    rewrite <- Hst, Hh.
    rewrite (slice_from_last 10) by (rewrite ?length_map, ?Hlen; lia).
    rewrite length_map, Hlen. reflexivity. }
  rewrite Hrecent, Ht, Hs, He, Hh, count_if_negb, !count_if_map, !length_map, Hlen.
  cbn [record_of pr_success].
  split; [reflexivity|].
  split; [rewrite length_drop, length_map, Hlen; reflexivity|].
  split; [reflexivity|]. split; [reflexivity|]. split; [reflexivity|].
  split; [reflexivity|]. apply store_all_stats.
Qed.

(** Lookups after counting *)
Lemma lookup_bump (b : bool) (k key : string) (d : gmap string Z) (n : Z) :
  d !! key = Some n ->
  bump b k d !! key
  = Some (n + (if b && bool_decide (key = k) then 1 else 0)).
Proof.
  intros Hn. unfold bump, incr. destruct b; simpl.
  - case_bool_decide as E.
    + subst k. rewrite Hn. rewrite lookup_insert_eq. reflexivity.
    + destruct (d !! k); [rewrite lookup_insert_ne by congruence|];
        rewrite Hn; f_equal; lia.
  - rewrite Hn. f_equal. lia.
Qed.

Lemma lookup_stats_after (problem key : string) (d : gmap string Z) (n : Z) :
  d !! key = Some n ->
  exists n', stats_after problem d !! key = Some n' /\ n <= n' <= n + 1.
Proof.
  intros Hn. unfold stats_after.
  erewrite lookup_bump; [|erewrite lookup_bump; [|erewrite lookup_bump;
    [|erewrite lookup_bump; [|exact Hn]; reflexivity]; reflexivity]; reflexivity].
  eexists. split; [reflexivity|].
  repeat case_bool_decide; simplify_eq;
    rewrite ?andb_false_r, ?andb_true_r;
    repeat match goal with |- context [if ?b then _ else _] => destruct b end;
    lia.
Qed.

Lemma status_invariant_init : status_invariant init.
Proof. split; reflexivity. Qed.

Lemma lookup_default (key : string) :
  key ∈ operation_keys -> operation_stats MemoryStatus_default !! key = Some 0.
Proof.
  unfold operation_keys. rewrite !elem_of_union, !elem_of_singleton.
  intros [[[-> | ->] | ->] | ->]; reflexivity.
Qed.

Lemma get_memory_summary_reads st : snd (get_memory_summary st) = st.
Proof.
  unfold get_memory_summary, bind, get, ret, lift.
  destruct (total_problems (memory_status st) =? 0); [reflexivity|].
  destruct (truediv _ _); reflexivity.
Qed.

Lemma get_recent_history_reads limit st : snd (get_recent_history limit st) = st.
Proof.
  unfold get_recent_history, bind, get, ret, lift.
  destruct (match session_history st with [] => [] | _ :: _ => _ end);
    [reflexivity|].
  destruct (truediv _ _); reflexivity.
Qed.

Lemma handle_snd {A} (c : M A) (k : A -> reply) st :
  snd (handle c k st) = snd (c st).
Proof. unfold handle. destruct (c st) as [[a|e] st']; reflexivity. Qed.

(** C4: every tool call keeps the invariant
    [success_count + error_count = total_problems] and the key set of
    [operation_stats]; a count is left alone or raised by one by
    [store_result], set to zero by [reset_memory], and the other tools
    leave the whole store as it was. *)
Theorem call_tool_keeps_invariant (t : tool) (st : ModularMemoryStore) :
  status_invariant st ->
  let st' := snd (call_tool t st) in
  status_invariant st'
  /\ (forall key n,
        operation_stats (memory_status st) !! key = Some n ->
        match t with
        | tool_store_result _ _ =>
            exists n', operation_stats (memory_status st') !! key = Some n'
                       /\ n <= n' <= n + 1
        | tool_reset_memory =>
            operation_stats (memory_status st') !! key = Some 0
        | _ => operation_stats (memory_status st') !! key = Some n
        end)
  /\ match t with
     | tool_store_result _ _ | tool_reset_memory => True
     | _ => st' = st
     end.
Proof.
  intros [Hsum Hdom]. cbv zeta.
  destruct t as [now request| | | |limit| |name]; unfold call_tool;
    rewrite ?handle_snd.
  - rewrite store_result_run by exact Hdom. cbv zeta.
    destruct (truediv _ _) as [q|e]; cbn [snd].
    + split; [|split; [|exact I]].
      * split; cbn [stored counted memory_status total_problems success_count
                    error_count operation_stats].
        -- destruct (req_success request); lia.
        -- rewrite dom_stats_after. exact Hdom.
      * intros key n Hn. cbn [stored counted memory_status operation_stats].
        apply lookup_stats_after, Hn.
    + split; [|split; [|exact I]].
      * split; cbn [counted memory_status total_problems success_count
                    error_count operation_stats].
        -- destruct (req_success request); lia.
        -- exact Hdom.
      * intros key n Hn. exists n. split; [exact Hn | lia].
  - cbn. repeat split; auto.
  - rewrite get_memory_summary_reads. repeat split; auto.
  - cbn. split; [apply status_invariant_init|]. split; [|exact I].
    intros key n Hn. apply lookup_default.
    rewrite <- Hdom. apply elem_of_dom. eauto.
  - rewrite get_recent_history_reads. repeat split; auto.
  - cbn. repeat split; auto.
  - cbn. repeat split; auto.
Qed.

(** C5: the trend is "insufficient data" for fewer than 2 records;
    otherwise, with s the successes among the last 5 records, it is
    "strongly improving" for s >= 4, "improving" for s = 3, "mixed" for
    s = 2 and "declining" for s <= 1. *)
Theorem trend_classification (st : ModularMemoryStore) :
  let h := session_history st in
  let s := count_if pr_success (drop (length h - 5) h) in
  ((length h < 2)%nat -> _analyze_recent_trend st = "insufficient data")
  /\ ((2 <= length h)%nat ->
      (4 <= s -> _analyze_recent_trend st = "strongly improving")
      /\ (s = 3 -> _analyze_recent_trend st = "improving")
      /\ (s = 2 -> _analyze_recent_trend st = "mixed")
      /\ (s <= 1 -> _analyze_recent_trend st = "declining")).
Proof.
  cbv zeta. unfold _analyze_recent_trend.
  assert (Hslice : slice_from (-5) (session_history st)
                   = drop (length (session_history st) - 5) (session_history st)).
  { destruct (le_lt_dec 5 (length (session_history st))) as [H|H].
    - apply (slice_from_last 5); lia.
    - rewrite (slice_from_short 5) by lia.
      replace (length (session_history st) - 5)%nat with 0%nat by lia.
      reflexivity. }
  rewrite Hslice.
  split.
  - intros H. replace (_ <? 2) with true by (symmetry; apply Z.ltb_lt; lia).
    reflexivity.
  - intros H. replace (_ <? 2) with false by (symmetry; apply Z.ltb_ge; lia).
    repeat split; intros Hs;
      repeat match goal with
             | |- context [?a <=? ?b] =>
                 destruct (Z.leb_spec a b); try lia
             end; reflexivity.
Qed.

(** Reachable stores *)
Lemma call_tool_counts t st :
  counts_history st -> counts_history (snd (call_tool t st)).
Proof.
  intros Hc.
  destruct t as [now request| | | |limit| |name]; unfold call_tool;
    rewrite ?handle_snd.
  - destruct (store_result_counts now request st Hc) as (q & _ & _ & -> & H).
    exact H.
  - exact Hc.
  - rewrite get_memory_summary_reads. exact Hc.
  - apply counts_history_init.
  - rewrite get_recent_history_reads. exact Hc.
  - exact Hc.
  - exact Hc.
Qed.

Lemma run_tools_counts ts : counts_history (run_tools ts init).
Proof.
  induction ts as [|t ts IH] using rev_ind; [apply counts_history_init|].
  rewrite run_tools_snoc. apply call_tool_counts, IH.
Qed.

Lemma lookup_incr_same (k : string) (d : gmap string Z) (n : Z) :
  d !! k = Some n -> incr k d !! k = Some (n + 1).
Proof. intros H. unfold incr. rewrite H. apply lookup_insert_eq. Qed.

Lemma lookup_incr_other (k k' : string) (d : gmap string Z) :
  k <> k' -> incr k d !! k' = d !! k'.
Proof.
  intros H. unfold incr. destruct (d !! k); [|reflexivity].
  apply lookup_insert_ne, H.
Qed.

(** The invariant holds at all times: on every store that tool calls
    reach from a fresh store. *)
Lemma run_tools_invariant (ts : list tool) :
  status_invariant (run_tools ts init).
Proof.
  destruct (run_tools_counts ts) as (Ht & Hs & He & Hd).
  split; [|exact Hd].
  rewrite Ht, Hs, He, count_if_negb. lia.
Qed.

(** C7: on every store that tool calls can reach, storing a record
    whose problem is "3 + 4x5" raises [addition] by exactly one and
    [multiplication] by exactly one, and leaves the two other counts. *)
Theorem double_counting (ts : list tool) (now : Z) (res : string) (ok : bool)
    (strategy : option string) (conf : option float) :
  let st := run_tools ts init in
  let request := {| req_problem := "3 + 4x5"; req_result := res;
                    req_success := ok; req_strategy_used := strategy;
                    req_confidence := conf |} in
  let st' := snd (call_tool (tool_store_result now request) st) in
  let before := operation_stats (memory_status st) in
  let after := operation_stats (memory_status st') in
  exists a m,
    before !! "addition" = Some a /\ after !! "addition" = Some (a + 1)
    /\ before !! "multiplication" = Some m
    /\ after !! "multiplication" = Some (m + 1)
    /\ after !! "subtraction" = before !! "subtraction"
    /\ after !! "division" = before !! "division".
Proof.
  cbv zeta. set (st := run_tools ts init).
  assert (Hc : counts_history st) by apply run_tools_counts.
  rewrite call_tool_store.
  destruct (store_result_counts now
              {| req_problem := "3 + 4x5"; req_result := res;
                 req_success := ok; req_strategy_used := strategy;
                 req_confidence := conf |} st Hc) as (q & _ & _ & -> & _).
  destruct Hc as (_ & _ & _ & Hd).
  destruct (keys_present _ Hd "addition" ltac:(set_solver)) as [a Ha].
  destruct (keys_present _ Hd "multiplication" ltac:(set_solver)) as [m Hm].
  destruct (keys_present _ Hd "subtraction" ltac:(set_solver)) as [s Hs].
  destruct (keys_present _ Hd "division" ltac:(set_solver)) as [dv Hdv].
  exists a, m.
  cbn [snd stored counted memory_status operation_stats req_problem].
  change (stats_after "3 + 4x5" (operation_stats (memory_status st)))
    with (incr "multiplication" (incr "addition" (operation_stats (memory_status st)))).
  rewrite Ha, Hm.
  repeat split.
  - rewrite lookup_incr_other by discriminate. apply lookup_incr_same, Ha.
  - apply lookup_incr_same. rewrite lookup_incr_other by discriminate. exact Hm.
  - rewrite !lookup_incr_other by discriminate. reflexivity.
  - rewrite !lookup_incr_other by discriminate. reflexivity.
Qed.

(** C10: on a non-empty history, [get_recent_history] with [limit=0]
    returns the whole history, its [count] the number of stored
    records: [history[-0:]] is [history[0:]]. *)
Theorem recent_history_limit_zero (st : ModularMemoryStore) :
  session_history st <> [] ->
  exists h,
    call_tool (tool_get_recent_history (Some 0)) st = (reply_history h, st)
    /\ recent_problems h = session_history st
    /\ count h = Z.of_nat (length (session_history st)).
Proof.
  intros Hne. unfold call_tool, handle, get_recent_history, bind, get, ret, lift.
  cbn [default]. change (- 0) with 0. rewrite slice_from_0.
  destruct (session_history st) as [|r l] eqn:E; [congruence|].
  assert (Hb := count_if_bounds pr_success (r :: l)).
  destruct (truediv_returns (count_if pr_success (r :: l))
              (Z.of_nat (length (r :: l)))) as (q & -> & _);
    [lia | simpl; lia |].
  eexists. split; [reflexivity|]. split; reflexivity.
Qed.

End StoreFacts.

(** ** The four stages, the coercion and the orchestrator *)

Module AgentFacts.
Import Agent AgentSpec.

Section Facts.

Variable W : world.

Lemma PerceptionAgent_analyze_run (e : string) (l : log) :
  PerceptionAgent_analyze W e l
  = (Returned (settle (and_then (parsed_reply W l (_create_perception_prompt W e))
                                (PerceptionOutput_of W))
                      (PerceptionAgent_create_error_response e)),
     l ++ [(Perception, _create_perception_prompt W e)]).
Proof.
  unfold PerceptionAgent_analyze, try_except, bind, generate_content, lift, ret,
    parsed_reply, and_then, settle.
  destruct (oracle W (length l) _) as [text|x]; [|reflexivity].
  destruct (_parse_llm_response W text) as [d|x]; [|reflexivity].
  destruct (PerceptionOutput_of W d); reflexivity.
Qed.

Lemma MemoryAgent_consult_run (i : MemoryInput) (l : log) :
  MemoryAgent_consult W i l
  = (Returned (settle (and_then (parsed_reply W l (_create_memory_prompt W i))
                                (MemoryOutput_of W))
                      (MemoryAgent_create_error_response i)),
     l ++ [(Memory, _create_memory_prompt W i)]).
Proof.
  unfold MemoryAgent_consult, try_except, bind, generate_content, lift, ret,
    parsed_reply, and_then, settle.
  destruct (oracle W (length l) _) as [text|x]; [|reflexivity].
  destruct (_parse_llm_response W text) as [d|x]; [|reflexivity].
  destruct (MemoryOutput_of W d); reflexivity.
Qed.

Lemma DecisionAgent_decide_run (i : DecisionInput) (l : log) :
  DecisionAgent_decide W i l
  = (Returned (settle (and_then (parsed_reply W l (_create_decision_prompt W i))
                                (DecisionOutput_of W))
                      (DecisionAgent_create_error_response i)),
     l ++ [(Decision, _create_decision_prompt W i)]).
Proof.
  unfold DecisionAgent_decide, try_except, bind, generate_content, lift, ret,
    parsed_reply, and_then, settle.
  destruct (oracle W (length l) _) as [text|x]; [|reflexivity].
  destruct (_parse_llm_response W text) as [d|x]; [|reflexivity].
  destruct (DecisionOutput_of W d); reflexivity.
Qed.

Lemma ActionAgent_execute_run (i : ActionInput) (l : log) :
  ActionAgent_execute W i l
  = (Returned (settle (and_then (and_then (parsed_reply W l (_create_action_prompt W i))
                                          (coerced W))
                                (ActionOutput_of W))
                      (ActionAgent_create_error_response i)),
     l ++ [(Action, _create_action_prompt W i)]).
Proof.
  unfold ActionAgent_execute, try_except, bind, generate_content, lift, ret,
    parsed_reply, and_then, settle, coerced.
  destruct (oracle W (length l) _) as [text|x]; [|reflexivity].
  destruct (_parse_llm_response W text) as [d|x]; [|reflexivity].
  destruct (match d with JDict d0 => _ | _ => _ end) as [d'|x]; [|reflexivity].
  destruct (ActionOutput_of W d'); reflexivity.
Qed.

(** C1, as amended: when the oracle raises during Perception, or answers
    with text that does not parse, [analyze] returns a bundle with
    [perception.is_valid = false] whose other components are the
    orchestrator's own error values (Memory: conservative_approach, 0.5,
    0 similar problems; Decision: conservative_detailed, 0.0, working
    steps shown, extra; Action: a result that starts with "Error: ",
    confidence 0.0), with [success = false]; the only oracle call of the
    run is the one of Perception. *)
Theorem perception_failure_bundle (now : Z) (e memory_summary : string) :
  let prompt := _create_perception_prompt W e in
  (exists x, oracle W 0 prompt = Raised x)
  \/ (exists text x, oracle W 0 prompt = Returned text
                     /\ _parse_llm_response W text = Raised x) ->
  exists b,
    analyze W now e memory_summary [] = (Returned b, [(Perception, prompt)])
    /\ is_valid (perception b) = false
    /\ strategy_recommendation (memory b) = conservative_approach
    /\ confidence_modifier (memory b) = f0_5
    /\ similar_problems_found (memory b) = 0
    /\ selected_method (decision b) = conservative_detailed
    /\ final_confidence (decision b) = f0_0
    /\ show_working_steps (decision b) = true
    /\ verification_level (decision b) = extra
    /\ result (action b) = "Error: perception_error"
    /\ startswith (result (action b)) "Error: " = true
    /\ confidence (action b) = f0_0
    /\ success b = false.
Proof.
  cbv zeta. intros H.
  assert (Hx : exists x, parsed_reply W [] (_create_perception_prompt W e) = Raised x).
  { unfold parsed_reply. simpl length.
    destruct H as [[x ->] | (text & x & -> & ->)]; eauto. }
  destruct Hx as [x Hx]. unfold analyze, try_except, bind.
  rewrite PerceptionAgent_analyze_run, Hx. cbn.
  eexists. split; [reflexivity|]. repeat split.
Qed.

(** C2: [analyze] always returns a bundle; when its perception is
    valid, the Action stage was called and [success] is the negation of
    [action.result.startswith("Error")]. *)
Theorem success_flag (now : Z) (e memory_summary : string) :
  exists b l,
    analyze W now e memory_summary [] = (Returned b, l)
    /\ (is_valid (perception b) = true ->
        (exists prompt, In (Action, prompt) l)
        /\ success b = negb (startswith (result (action b)) "Error")).
Proof.
  unfold analyze, try_except, bind.
  rewrite PerceptionAgent_analyze_run.
  set (p := settle _ _).
  destruct (is_valid p) eqn:Hp; cbn [negb].
  - rewrite MemoryAgent_consult_run, DecisionAgent_decide_run,
      ActionAgent_execute_run. unfold ret.
    eexists. eexists. split; [reflexivity|].
    intros _. cbn [success action result]. split; [|reflexivity].
    eexists. apply in_or_app. right. left. reflexivity.
  - unfold ret. eexists. eexists. split; [reflexivity|].
    cbn [_create_error_result perception]. rewrite Hp. discriminate.
Qed.

(** C8: [quick_solve] calls the oracle for Perception, and then, when
    the perception is valid, for Action on the input that carries the
    fixed decision (direct_calculation, 0.7, no working steps, minimal);
    its result is that of the Action stage, and no call is made for
    Memory or Decision. *)
Theorem quick_solve_stages (e : string) :
  let pp := _create_perception_prompt W e in
  exists p,
    PerceptionAgent_analyze W e [] = (Returned p, [(Perception, pp)])
    /\ let input := {| ai_expression := e; ai_perception_data := p;
                       ai_decision_data := simple_decision |} in
       fst (quick_solve W e [])
       = (if is_valid p
          then fst (ActionAgent_execute W input [(Perception, pp)])
          else Returned
                 {| result := "Error: " +:+ str_option (error_message p);
                    steps := ["Invalid expression"];
                    confidence := f0_0;
                    verification := "Cannot verify invalid expression";
                    execution_notes :=
                      "Expression failed perception validation" |})
       /\ snd (quick_solve W e [])
          = (Perception, pp)
            :: (if is_valid p then [(Action, _create_action_prompt W input)]
                else [])
       /\ Forall (fun c => fst c <> Memory /\ fst c <> Decision)
                 (snd (quick_solve W e []))
       /\ selected_method simple_decision = direct_calculation
       /\ final_confidence simple_decision = f0_7
       /\ show_working_steps simple_decision = false
       /\ verification_level simple_decision = minimal.
Proof.
  cbv zeta. rewrite PerceptionAgent_analyze_run. eexists.
  split; [reflexivity|].
  unfold quick_solve, try_except, bind.
  rewrite PerceptionAgent_analyze_run. cbn [app].
  set (p := settle _ _).
  destruct (is_valid p) eqn:Hp; cbn [negb].
  - rewrite ActionAgent_execute_run. cbn [fst snd app].
    repeat split; try reflexivity.
    repeat constructor; discriminate.
  - unfold ret. cbn [fst snd].
    repeat split; try reflexivity.
    repeat constructor; discriminate.
Qed.

Lemma SFltb_SFleb (x y : float) : SFltb x y = true -> SFleb x y = true.
Proof.
  unfold SFltb, SFleb. destruct (SFcompare x y) as [[]|]; congruence.
Qed.

Lemma clamp_in_range (x : float) :
  fle f0_0 (py_max f0_0 (py_min f1_0 x)) = true
  /\ fle (py_max f0_0 (py_min f1_0 x)) f1_0 = true.
Proof.
  unfold py_max, py_min, flt, fle.
  destruct (SFltb x f1_0) eqn:H1.
  - destruct (SFltb f0_0 x) eqn:H0.
    + split; apply SFltb_SFleb; assumption.
    + split; reflexivity.
  - destruct (SFltb f0_0 f1_0) eqn:H0; split; reflexivity.
Qed.

(** C9, the failing input: on an integer confidence too large for
    binary64 the coercion raises [OverflowError], which its handler for
    [ValueError] and [TypeError] lets through, while the float infinity is
    clamped to 1.0. *)
Theorem huge_int_confidence_raises :
  _validate_and_fix_result W {[ "confidence" := JInt (10 ^ 400) ]}
  = Raised (OverflowError "int too large to convert to float")
  /\ _validate_and_fix_result W
       {[ "confidence" := JFloat (S754_infinity false) ]}
     = Returned {[ "confidence" := JFloat f1_0 ]}.
Proof. split; vm_compute; reflexivity. Qed.

Lemma lookup_fix_text (field k : string) (d : gmap string json) :
  fix_text W field d !! k
  = if decide (k = field) then stringify W <$> d !! k else d !! k.
Proof.
  unfold fix_text. case_decide as E.
  - subst k. destruct (d !! field) as [v|] eqn:Hv; [|rewrite Hv; reflexivity].
    destruct v; cbn [is_str]; rewrite ?lookup_insert_eq, ?Hv; reflexivity.
  - destruct (d !! field) as [v|]; [|reflexivity].
    destruct (is_str v); [reflexivity|].
    apply lookup_insert_ne. congruence.
Qed.

Lemma fix_result_fix_text (d : gmap string json) :
  fix_result W d = fix_text W "result" d.
Proof.
  unfold fix_result, fix_text. destruct (d !! "result") as [[]|]; reflexivity.
Qed.

Lemma lookup_fix_steps (k : string) (d : gmap string json) :
  fix_steps W d !! k
  = if decide (k = "steps") then listify W <$> d !! k else d !! k.
Proof.
  unfold fix_steps. case_decide as E.
  - subst k. destruct (d !! "steps") as [v|] eqn:Hv; [|rewrite Hv; reflexivity].
    destruct v; rewrite lookup_insert_eq; reflexivity.
  - destruct (d !! "steps") as [v|]; [|reflexivity].
    destruct v; apply lookup_insert_ne; congruence.
Qed.

Lemma fix_confidence_cases (d : gmap string json) :
  match fix_confidence W d with
  | Raised x =>
      exists z, d !! "confidence" = Some (JInt z) /\ float_of_int z = Raised x
  | Returned d' =>
      forall k, d' !! k
                = if decide (k = "confidence") then clamp_or_default W <$> d !! k
                  else d !! k
  end.
Proof.
  unfold fix_confidence.
  destruct (d !! "confidence") as [v|] eqn:Hv.
  - assert (Hins : forall c k,
              <["confidence" := c]> d !! k
              = if decide (k = "confidence") then Some c else d !! k).
    { intros c k. case_decide; [subst; apply lookup_insert_eq|].
      apply lookup_insert_ne. congruence. }
    assert (Hint : forall x,
              py_float W v = Raised x ->
              (forall m, x <> ValueError m) -> (forall m, x <> TypeError m) ->
              exists z, Some v = Some (JInt z) /\ float_of_int z = Raised x).
    { intros x Hx Hval Hty. destruct v as [|b|z|y|s|l|m]; cbn [py_float] in Hx;
        try discriminate Hx; try (injection Hx as <-; exfalso; eapply Hty; reflexivity).
      - eauto.
      - destruct (float_of_str W s); [discriminate Hx|].
        injection Hx as <-. exfalso. eapply Hval. reflexivity. }
    unfold clamp_or_default.
    destruct (py_float W v) as [x|x] eqn:Hf.
    + intros k. rewrite Hins. case_decide; [subst k; rewrite Hv|]; [|reflexivity].
      cbn [fmap option_fmap option_map]. rewrite Hf. reflexivity.
    + destruct x;
        try (intros k; rewrite Hins; case_decide; [subst k; rewrite Hv|];
             [cbn [fmap option_fmap option_map]; rewrite Hf|]; reflexivity);
        apply Hint; congruence.
  - intros k. case_decide; [subst k; rewrite Hv|]; reflexivity.
Qed.

Lemma clamp_or_default_in_range (v : json) :
  exists c, clamp_or_default W v = JFloat c
            /\ fle f0_0 c = true /\ fle c f1_0 = true.
Proof.
  unfold clamp_or_default. destruct (py_float W v) as [x|x].
  - eexists. split; [reflexivity|]. apply clamp_in_range.
  - exists f0_5. repeat split.
Qed.

(** Whenever the coercion returns, every field it looks at has the
    promised form; it fails to return only on an integer confidence
    that [float] cannot hold. *)
Lemma validate_and_fix_spec (d : gmap string json) :
  match _validate_and_fix_result W d with
  | Raised x =>
      exists z, d !! "confidence" = Some (JInt z) /\ float_of_int z = Raised x
  | Returned d' =>
      (forall v, d !! "result" = Some v -> d' !! "result" = Some (stringify W v))
      /\ (forall v, d !! "steps" = Some v -> d' !! "steps" = Some (listify W v))
      /\ (forall v, d !! "confidence" = Some v ->
            d' !! "confidence" = Some (clamp_or_default W v))
      /\ (forall v, d !! "verification" = Some v ->
            d' !! "verification" = Some (stringify W v))
      /\ (forall v, d !! "execution_notes" = Some v ->
            d' !! "execution_notes" = Some (stringify W v))
  end.
Proof.
  unfold _validate_and_fix_result.
  assert (H := fix_confidence_cases (fix_steps W (fix_result W d))).
  destruct (fix_confidence W (fix_steps W (fix_result W d))) as [d'|x].
  - repeat split; intros v Hv;
      rewrite !lookup_fix_text, H, lookup_fix_steps, fix_result_fix_text,
        lookup_fix_text;
      repeat case_decide; try congruence; rewrite Hv; reflexivity.
  - destruct H as (z & Hz & Hx). exists z. split; [|exact Hx].
    rewrite lookup_fix_steps, fix_result_fix_text, lookup_fix_text in Hz.
    repeat case_decide; try congruence.
Qed.

End Facts.

End AgentFacts.

(** ** Concrete runs *)

Module PyExamples.
Import Agent.

Example slice_last_ten :
  slice_from (-10) [1; 2; 3; 4; 5; 6; 7; 8; 9; 10; 11; 12; 13; 14; 15]
  = [6; 7; 8; 9; 10; 11; 12; 13; 14; 15].
Proof. reflexivity. Qed.

Example slice_short_list : slice_from (-5) [1; 2; 3] = [1; 2; 3].
Proof. reflexivity. Qed.

Example slice_minus_zero : slice_from (- 0) [1; 2; 3] = [1; 2; 3].
Proof. reflexivity. Qed.

Example slice_negative_limit : slice_from (- -2) [1; 2; 3] = [3].
Proof. reflexivity. Qed.

Example times_sign_found : str_in "×" "3 × 4" = true.
Proof. reflexivity. Qed.

Example capital_x_found : str_in "x" (lower "3 X 4") = true.
Proof. reflexivity. Qed.

Example minus_not_found : str_in "-" "3 + 4x5" = false.
Proof. reflexivity. Qed.

Example code_points_of_text : code_points "a×÷b" = ["a"; "×"; "÷"; "b"].
Proof. reflexivity. Qed.

Example fenced_reply : slice_between 7 3 "```json{}```" = "{}".
Proof. reflexivity. Qed.

Example half_is_exact : f0_5 = S754_finite false 4503599627370496 (-53).
Proof. vm_compute. reflexivity. Qed.

Example six_tenths : f0_6 = S754_finite false 5404319552844595 (-53).
Proof. vm_compute. reflexivity. Qed.

Example one_third_of_hundred :
  (match truediv 1 3 with
   | Returned q => format_1f (fmul q f100)
   | Raised _ => "raised"
   end) = "33.3".
Proof. vm_compute. reflexivity. Qed.

Example largest_int_that_float_takes :
  float_of_int (2 ^ 1024 - 2 ^ 970 - 1)
  = Returned (S754_finite false 9007199254740991 971)
  /\ float_of_int (2 ^ 1024 - 2 ^ 970)
     = Raised (OverflowError "int too large to convert to float").
Proof. vm_compute. split; reflexivity. Qed.

Example clamp_of_nan : py_max f0_0 (py_min f1_0 S754_nan) = f1_0.
Proof. vm_compute. reflexivity. Qed.

End PyExamples.

Module StoreExamples.
Import MemoryStore StoreSpec StoreFacts.

(** The scenarios of the specification. *)
Example one_success :
  let st := memory_status
              (store_all [(0, {| req_problem := "5 + 3"; req_result := "8";
                                 req_success := true; req_strategy_used := None;
                                 req_confidence := None |})]) in
  total_problems st = 1 /\ success_count st = 1
  /\ success_rate st = "100.0%" /\ operation_stats st !! "addition" = Some 1.
Proof. vm_compute. repeat split. Qed.

Example one_failure_one_success :
  let st := memory_status
              (store_all [(0, {| req_problem := "1/0";
                                 req_result := "Error: Division by zero";
                                 req_success := false; req_strategy_used := None;
                                 req_confidence := None |});
                          (1, {| req_problem := "2*3"; req_result := "6";
                                 req_success := true; req_strategy_used := None;
                                 req_confidence := None |})]) in
  success_rate st = "50.0%" /\ operation_stats st !! "multiplication" = Some 1
  /\ error_count st = 1.
Proof. vm_compute. repeat split. Qed.

(** C3, counterexample: after 80 stores of which 23 succeed the store
    shows "28.7%", because the quotient 23/80 is rounded before it is
    multiplied by 100.  The rate as specified, [round(100*23/80, 1)], is
    "28.8%": 100*23/80 is exactly 28.75, a tie that goes to the even
    digit. *)
Lemma rate_of_23_in_80 :
  let st := memory_status (store_all (requests 23 true ++ requests 57 false)) in
  total_problems st = 80
  /\ success_count st = 23
  /\ success_rate st = "28.7%"
  /\ rate_as_specified 23 80 = Returned "28.8%"
  /\ 4 * (100 * 23) = 115 * 80
  /\ div_half_even (10 * (100 * 23)) 80 = 288
  /\ String.eqb (success_rate st) "28.8%" = false.
Proof. vm_compute. repeat split. Qed.

(** C3, witness: three successes and one failure give "75.0%". *)
Lemma store_counts_and_rate_witness :
  (1 <= length (requests 3 true ++ requests 1 false))%nat
  /\ let st := memory_status (store_all (requests 3 true ++ requests 1 false)) in
     total_problems st = 4 /\ success_count st = 3 /\ error_count st = 1
     /\ success_rate st = "75.0%".
Proof.
  assert (H : (1 <= length (requests 3 true ++ requests 1 false))%nat)
    by (simpl; lia).
  split; [exact H|].
  destruct (store_counts_and_rate _ H) as (Ht & Hs & He & q & Hq & Hr & _).
  vm_compute in Hq. injection Hq as <-.
  cbv zeta. rewrite Ht, Hs, He, Hr. vm_compute. repeat split.
Defined.

(** C4, witness: a store on the fresh store. *)
Lemma call_tool_keeps_invariant_witness :
  status_invariant init
  /\ status_invariant
       (snd (call_tool (tool_store_result 0
                          {| req_problem := "3 + 4x5"; req_result := "23";
                             req_success := true; req_strategy_used := None;
                             req_confidence := None |}) init)).
Proof.
  split; [apply status_invariant_init|].
  apply (call_tool_keeps_invariant
           (tool_store_result 0 {| req_problem := "3 + 4x5"; req_result := "23";
                                   req_success := true; req_strategy_used := None;
                                   req_confidence := None |})
           init status_invariant_init).
Defined.

(** C5, witness: the five boundary histories of the specification. *)
Lemma trend_classification_witness :
  _analyze_recent_trend (store_all (requests 4 true ++ requests 1 false))
  = "strongly improving"
  /\ _analyze_recent_trend (store_all (requests 3 true ++ requests 2 false))
     = "improving"
  /\ _analyze_recent_trend (store_all (requests 2 true ++ requests 3 false))
     = "mixed"
  /\ _analyze_recent_trend (store_all (requests 1 true ++ requests 4 false))
     = "declining"
  /\ _analyze_recent_trend (store_all (requests 1 true)) = "insufficient data".
Proof.
  split; [|split; [|split; [|split]]].
  - apply (trend_classification (store_all (requests 4 true ++ requests 1 false)));
      vm_compute; [lia | discriminate].
  - apply (trend_classification (store_all (requests 3 true ++ requests 2 false)));
      vm_compute; [lia | reflexivity].
  - apply (trend_classification (store_all (requests 2 true ++ requests 3 false)));
      vm_compute; [lia | reflexivity].
  - apply (trend_classification (store_all (requests 1 true ++ requests 4 false)));
      vm_compute; [lia | discriminate].
  - apply (trend_classification (store_all (requests 1 true))); vm_compute; lia.
Defined.

(** C6, witness: nine successes, then six failures. *)
Lemma recent_history_window_witness :
  length (requests 9 true ++ requests 6 false) = 15%nat
  /\ let st := store_all (requests 9 true ++ requests 6 false) in
     length (recent_history (memory_status st)) = 10%nat
     /\ recent_history (memory_status st)
        = map record_of (requests 4 true ++ requests 6 false)
     /\ total_problems (memory_status st) = 15
     /\ success_count (memory_status st) = 9.
Proof.
  assert (H : length (requests 9 true ++ requests 6 false) = 15%nat)
    by reflexivity.
  split; [exact H|].
  destruct (recent_history_window _ H) as (Hr & Hl & _ & Ht & Hs & _).
  cbv zeta. rewrite Hr, Ht, Hs. repeat split.
Defined.

(** C10, witness: seven stored records, all returned for [limit=0]. *)
Lemma recent_history_limit_zero_witness :
  session_history (store_all (requests 7 true)) <> []
  /\ exists h,
       call_tool (tool_get_recent_history (Some 0)) (store_all (requests 7 true))
       = (reply_history h, store_all (requests 7 true))
       /\ count h = 7.
Proof.
  assert (H : session_history (store_all (requests 7 true)) <> [])
    by (vm_compute; discriminate).
  split; [exact H|].
  destruct (recent_history_limit_zero _ H) as (h & Hc & _ & Hn).
  exists h. split; [exact Hc|]. rewrite Hn. reflexivity.
Defined.

End StoreExamples.

Module AgentExamples.
Import Agent AgentSpec AgentFacts Scenario.

(** C1, counterexample: when the oracle is down, the bundle carries the
    orchestrator's own error values, which are not the fallback values of
    the Memory and Decision stages: confidence modifier 0.5 against 0.6,
    final confidence 0.0 against 0.5, verification level extra against
    high. *)
Lemma fallbacks_of_the_orchestrator :
  match fst (analyze down 0 "5 + 3" "" []) with
  | Returned b =>
      is_valid (perception b) = false
      /\ confidence_modifier (memory b) = f0_5
      /\ final_confidence (decision b) = f0_0
      /\ verification_level (decision b) = extra
      /\ confidence_modifier
           (MemoryAgent_create_error_response
              {| mi_expression := "5 + 3"; mi_perception_data := perception b;
                 mi_memory_summary := "" |} "boom") = f0_6
      /\ final_confidence
           (DecisionAgent_create_error_response
              {| di_expression := "5 + 3"; di_perception_data := perception b;
                 di_memory_data := memory b |} "boom") = f0_5
      /\ verification_level
           (DecisionAgent_create_error_response
              {| di_expression := "5 + 3"; di_perception_data := perception b;
                 di_memory_data := memory b |} "boom") = high
  | Raised _ => False
  end
  /\ SFeqb f0_5 f0_6 = false
  /\ SFeqb f0_0 f0_5 = false.
Proof. vm_compute. repeat split. Qed.

(** C1, witness: an oracle that raises, and one that answers with text
    that is no JSON. *)
Lemma perception_failure_bundle_witness :
  ((exists x, oracle down 0 (_create_perception_prompt down "5 + 3") = Raised x)
   /\ exists b, analyze down 0 "5 + 3" "" []
                = (Returned b, [(Perception, "perceive 5 + 3")])
                /\ is_valid (perception b) = false
                /\ result (action b) = "Error: perception_error")
  /\ ((exists text x,
          oracle garbled 0 (_create_perception_prompt garbled "5 + 3")
          = Returned text
          /\ _parse_llm_response garbled text = Raised x)
      /\ exists b, analyze garbled 0 "5 + 3" "" []
                   = (Returned b, [(Perception, "perceive 5 + 3")])
                   /\ is_valid (perception b) = false
                   /\ success b = false).
Proof.
  split.
  - assert (H : exists x, oracle down 0 (_create_perception_prompt down "5 + 3")
                          = Raised x) by (eexists; reflexivity).
    split; [exact H|].
    destruct (perception_failure_bundle down 0 "5 + 3" "" (or_introl H))
      as (b & Hb & Hv & _).
    exists b. split; [exact Hb|]. split; [exact Hv|].
    vm_compute in Hb. injection Hb as <-. reflexivity.
  - assert (H : exists text x,
                  oracle garbled 0 (_create_perception_prompt garbled "5 + 3")
                  = Returned text
                  /\ _parse_llm_response garbled text = Raised x)
      by (eexists; eexists; split; reflexivity).
    split; [exact H|].
    destruct (perception_failure_bundle garbled 0 "5 + 3" "" (or_intror H))
      as (b & Hb & Hv & Hrest).
    exists b. split; [exact Hb|]. split; [exact Hv|]. apply Hrest.
Defined.

(** C2, witness: a run in which every stage gets a valid reply. *)
Lemma success_flag_witness :
  exists b l,
    analyze answering 0 "5 + 3" "" [] = (Returned b, l)
    /\ is_valid (perception b) = true
    /\ result (action b) = "8"
    /\ success b = true.
Proof.
  destruct (success_flag answering 0 "5 + 3" "") as (b & l & Hb & H).
  exists b, l. split; [exact Hb|].
  assert (Hb' := Hb). vm_compute in Hb'. injection Hb' as <- <-.
  destruct (H eq_refl) as [_ Hs].
  split; [reflexivity|]. split; [reflexivity|]. exact Hs.
Defined.

End AgentExamples.

(** * Further properties of the store, the stages and the client *)

Module TextFacts.

(** Prefixes and appended text *)
Lemma prefix_append_self (p t : string) : String.prefix p (p +:+ t) = true.
Proof.
  induction p as [|c p IH]; simpl; [destruct t; reflexivity|].
  destruct (Ascii.ascii_dec c c) as [_|Hn]; [exact IH | congruence].
Qed.

Lemma prefix_append (p s t : string) :
  String.prefix p s = true -> String.prefix p (s +:+ t) = true.
Proof.
  revert s. induction p as [|c p IH]; intros s H; simpl.
  - destruct (s +:+ t); reflexivity.
  - destruct s as [|c' s]; simpl in H; [discriminate|]. simpl.
    destruct (Ascii.ascii_dec c c'); [apply IH, H | discriminate].
Qed.

End TextFacts.

Module StoreMore.
#[local] Set Warnings "-notation-overridden".
Import FloatSpec PyFacts MemoryStore StoreSpec StoreFacts MoreSpec TextFacts.

(** Every store that tool calls reach is the fresh store or the result of
    a [store_result] that returned on a reachable store. *)
Lemma reachable_ind (P : ModularMemoryStore -> Prop) :
  P init ->
  (forall st now request q,
     counts_history st -> P st ->
     truediv (count_if pr_success (session_history st ++ [record_of (now, request)]))
             (Z.of_nat (length (session_history st)) + 1) = Returned q ->
     small q ->
     P (stored now request (format_1f (fmul q f100) +:+ "%") st)) ->
  forall ts, P (run_tools ts init).
Proof.
  intros Hinit Hstore ts.
  induction ts as [|t ts IH] using rev_ind; [exact Hinit|].
  rewrite run_tools_snoc.
  assert (Hc := run_tools_counts ts).
  destruct t as [now request| | | |limit| |name]; unfold call_tool;
    rewrite ?handle_snd.
  - destruct (store_result_counts now request _ Hc) as (q & Hq & Hsm & -> & _).
    apply Hstore; assumption.
  - exact IH.
  - rewrite get_memory_summary_reads. exact IH.
  - exact Hinit.
  - rewrite get_recent_history_reads. exact IH.
  - exact IH.
  - exact IH.
Qed.

(** X1: on every store that a sequence of tool calls reaches from the
    fresh store, [store_result] returns (it raises neither
    [ZeroDivisionError] nor [KeyError]): the reply carries the request's
    fields and [total_problems = len(session_history) + 1], the record
    is appended and the total goes up by one. *)
Theorem store_result_always_returns (ts : list tool) (now : Z)
    (request : StoreResultRequest) :
  let st := run_tools ts init in
  exists st',
    call_tool (tool_store_result now request) st
    = (reply_stored
         {| resp_status := "Result stored successfully";
            resp_problem := req_problem request;
            resp_result := req_result request;
            resp_success := req_success request;
            resp_total_problems := Z.of_nat (length (session_history st)) + 1 |},
       st')
    /\ session_history st' = session_history st ++ [record_of (now, request)]
    /\ total_problems (memory_status st')
       = total_problems (memory_status st) + 1.
Proof.
  cbv zeta. assert (Hc := run_tools_counts ts).
  rewrite call_tool_store.
  destruct (store_result_counts now request _ Hc) as (q & _ & _ & -> & _).
  destruct Hc as (Ht & _).
  eexists. split.
  - unfold response_of. rewrite Ht. reflexivity.
  - split; reflexivity.
Qed.

(** X2: after any sequence of tool calls on the fresh store (stores,
    reads, resets, unknown tools), [total_problems] is the length of
    [session_history], [success_count] the number of its successful
    records and [error_count] the number of the others. *)
Theorem counters_describe_history (ts : list tool) :
  let st := run_tools ts init in
  let h := session_history st in
  total_problems (memory_status st) = Z.of_nat (length h)
  /\ success_count (memory_status st) = count_if pr_success h
  /\ error_count (memory_status st) = Z.of_nat (length h) - count_if pr_success h
  /\ 0 <= success_count (memory_status st) <= total_problems (memory_status st).
Proof.
  cbv zeta. destruct (run_tools_counts ts) as (Ht & Hs & He & _).
  rewrite Ht, Hs, He, count_if_negb.
  assert (H := count_if_bounds pr_success (session_history (run_tools ts init))).
  repeat split; lia.
Qed.

(** X3: after any sequence of tool calls on the fresh store,
    [recent_history] is the last ten records of [session_history] (all
    of them when there are fewer), so it has [min(10, len)] records. *)
Theorem recent_history_is_last_ten (ts : list tool) :
  let st := run_tools ts init in
  let h := session_history st in
  recent_history (memory_status st) = drop (length h - 10) h
  /\ length (recent_history (memory_status st)) = min 10 (length h).
Proof.
  cbv zeta.
  assert (H : recent_history (memory_status (run_tools ts init))
              = slice_from (-10) (session_history (run_tools ts init))).
  { apply (reachable_ind (fun st => recent_history (memory_status st)
                                    = slice_from (-10) (session_history st)));
      [reflexivity|]. intros; reflexivity. }
  rewrite H. set (h := session_history (run_tools ts init)).
  assert (Hs : slice_from (-10) h = drop (length h - 10) h).
  { destruct (le_lt_dec 10 (length h)).
    - apply (slice_from_last 10); lia.
    - rewrite (slice_from_short 10) by lia.
      replace (length h - 10)%nat with 0%nat by lia. reflexivity. }
  rewrite Hs. split; [reflexivity|]. rewrite length_drop. lia.
Qed.

Lemma occurrences_snoc (test : string -> bool) (h : list ProblemResult)
    (r : ProblemResult) :
  occurrences test (h ++ [r])
  = occurrences test h + (if test (pr_problem r) then 1 else 0).
Proof.
  unfold occurrences. rewrite count_if_app, count_if_cons, count_if_nil. lia.
Qed.

(** The four counts after one more problem. *)
Lemma lookup_stats_after_keys (problem : string) (d : gmap string Z)
    (a s m v : Z) :
  d !! "addition" = Some a -> d !! "subtraction" = Some s ->
  d !! "multiplication" = Some m -> d !! "division" = Some v ->
  stats_after problem d !! "addition"
  = Some (a + (if has_addition problem then 1 else 0))
  /\ stats_after problem d !! "subtraction"
     = Some (s + (if has_subtraction problem then 1 else 0))
  /\ stats_after problem d !! "multiplication"
     = Some (m + (if has_multiplication problem then 1 else 0))
  /\ stats_after problem d !! "division"
     = Some (v + (if has_division problem then 1 else 0)).
Proof.
  intros Ha Hs Hm Hv. unfold stats_after.
  fold (has_addition problem) (has_subtraction problem)
       (has_multiplication problem) (has_division problem).
  repeat split.
  - erewrite lookup_bump; [|erewrite lookup_bump; [|erewrite lookup_bump;
      [|erewrite lookup_bump; [|exact Ha]; reflexivity]; reflexivity]; reflexivity].
    repeat case_bool_decide; try congruence;
      rewrite ?andb_false_r, ?andb_true_r; f_equal; lia.
  - erewrite lookup_bump; [|erewrite lookup_bump; [|erewrite lookup_bump;
      [|erewrite lookup_bump; [|exact Hs]; reflexivity]; reflexivity]; reflexivity].
    repeat case_bool_decide; try congruence;
      rewrite ?andb_false_r, ?andb_true_r; f_equal; lia.
  - erewrite lookup_bump; [|erewrite lookup_bump; [|erewrite lookup_bump;
      [|erewrite lookup_bump; [|exact Hm]; reflexivity]; reflexivity]; reflexivity].
    repeat case_bool_decide; try congruence;
      rewrite ?andb_false_r, ?andb_true_r; f_equal; lia.
  - erewrite lookup_bump; [|erewrite lookup_bump; [|erewrite lookup_bump;
      [|erewrite lookup_bump; [|exact Hv]; reflexivity]; reflexivity]; reflexivity].
    repeat case_bool_decide; try congruence;
      rewrite ?andb_false_r, ?andb_true_r; f_equal; lia.
Qed.

(** X4: after any sequence of tool calls on the fresh store, each of
    the four entries of [operation_stats] is the number of records of
    [session_history] whose problem text passes the entry's substring
    test, and so lies between 0 and [total_problems]. *)
Theorem operation_stats_count_history (ts : list tool) :
  let st := run_tools ts init in
  let d := operation_stats (memory_status st) in
  let h := session_history st in
  d !! "addition" = Some (occurrences has_addition h)
  /\ d !! "subtraction" = Some (occurrences has_subtraction h)
  /\ d !! "multiplication" = Some (occurrences has_multiplication h)
  /\ d !! "division" = Some (occurrences has_division h)
  /\ forall key n, d !! key = Some n ->
       0 <= n <= total_problems (memory_status st).
Proof.
  cbv zeta.
  assert (H : let st := run_tools ts init in
              operation_stats (memory_status st) !! "addition"
              = Some (occurrences has_addition (session_history st))
              /\ operation_stats (memory_status st) !! "subtraction"
                 = Some (occurrences has_subtraction (session_history st))
              /\ operation_stats (memory_status st) !! "multiplication"
                 = Some (occurrences has_multiplication (session_history st))
              /\ operation_stats (memory_status st) !! "division"
                 = Some (occurrences has_division (session_history st))).
  { apply (reachable_ind (fun st =>
      operation_stats (memory_status st) !! "addition"
      = Some (occurrences has_addition (session_history st))
      /\ operation_stats (memory_status st) !! "subtraction"
         = Some (occurrences has_subtraction (session_history st))
      /\ operation_stats (memory_status st) !! "multiplication"
         = Some (occurrences has_multiplication (session_history st))
      /\ operation_stats (memory_status st) !! "division"
         = Some (occurrences has_division (session_history st)))).
    - repeat split.
    - intros st now request q _ (Ha & Hs & Hm & Hv) _ _.
      cbn [stored counted memory_status operation_stats session_history].
      rewrite !occurrences_snoc. cbn [record_of pr_problem snd].
      apply lookup_stats_after_keys; assumption. }
  cbv zeta in H. destruct H as (Ha & Hs & Hm & Hv).
  split; [exact Ha|]. split; [exact Hs|]. split; [exact Hm|]. split; [exact Hv|].
  intros key n Hn.
  destruct (run_tools_counts ts) as (Ht & _ & _ & Hd).
  assert (Hkey : key ∈ operation_keys)
    by (rewrite <- Hd; apply elem_of_dom; eauto).
  rewrite Ht. unfold operation_keys in Hkey.
  rewrite !elem_of_union, !elem_of_singleton in Hkey.
  destruct Hkey as [[[-> | ->] | ->] | ->];
    rewrite ?Ha, ?Hs, ?Hm, ?Hv in Hn; injection Hn as <-;
    apply count_if_bounds.
Qed.

(** X5: after any sequence of tool calls on the fresh store, the
    stored [success_rate] is "0%" when nothing is stored, and otherwise
    the one-decimal rendering of [success_count / total_problems * 100]
    for the counters as they are now: the text is never stale. *)
Theorem success_rate_matches_counters (ts : list tool) :
  let st := memory_status (run_tools ts init) in
  (total_problems st = 0 /\ success_rate st = "0%")
  \/ (0 < total_problems st
      /\ exists q, truediv (success_count st) (total_problems st) = Returned q
                   /\ success_rate st = format_1f (fmul q f100) +:+ "%"
                   /\ one_decimal (format_1f (fmul q f100))).
Proof.
  cbv zeta.
  apply (reachable_ind (fun s =>
    let st := memory_status s in
    (total_problems st = 0 /\ success_rate st = "0%")
    \/ (0 < total_problems st
        /\ exists q, truediv (success_count st) (total_problems st) = Returned q
                     /\ success_rate st = format_1f (fmul q f100) +:+ "%"
                     /\ one_decimal (format_1f (fmul q f100))))).
  - left. split; reflexivity.
  - intros st now request q Hc _ Hq Hsm. right.
    destruct (counted_counts now request st Hc) as (Ht & Hs & _).
    cbn [stored memory_status total_problems success_count success_rate].
    rewrite Ht, Hs.
    assert (Hlen : Z.of_nat (length (session_history (counted now request st)))
                   = Z.of_nat (length (session_history st)) + 1).
    { unfold counted. cbn [session_history]. rewrite length_app. simpl. lia. }
    rewrite Hlen. split; [lia|]. exists q.
    split; [exact Hq|]. split; [reflexivity|].
    apply format_1f_one_decimal, fmul_100_finite, Hsm.
Qed.

(** X6: [reset_memory] answers with its fixed message and leaves the
    fresh store, whatever the store was; the calls that follow a reset
    have the effect they have on a fresh store, and a summary asked
    right after a reset is the fresh-start text. *)
Theorem reset_forgets_the_past (st : ModularMemoryStore)
    (before after : list tool) :
  call_tool tool_reset_memory st
  = (reply_reset
       {| reset_status := "Memory reset successfully";
          reset_message := "All learning history cleared. Agent will start fresh with conservative approach." |},
     init)
  /\ run_tools (before ++ tool_reset_memory :: after) st = run_tools after init
  /\ call_tool tool_get_memory_summary (run_tools (before ++ [tool_reset_memory]) st)
     = (reply_summary
          {| summary := "No previous experience. This is a fresh start.";
             raw_data := MemoryStatus_default |}, init).
Proof.
  assert (H : forall rest, run_tools (before ++ tool_reset_memory :: rest) st
                           = run_tools rest init).
  { intros rest. unfold run_tools. rewrite fold_left_app. reflexivity. }
  split; [reflexivity|]. split; [apply H|].
  rewrite H. reflexivity.
Qed.

(** On a store whose counters count its history the summary is
    returned and the store left as it was. *)
Lemma call_summary_returns (st : ModularMemoryStore) :
  counts_history st ->
  exists s, call_tool tool_get_memory_summary st = (reply_summary s, st).
Proof.
  intros (Ht & Hs & _).
  unfold call_tool, handle, get_memory_summary, bind, get, ret, lift.
  destruct (total_problems (memory_status st) =? 0) eqn:Hz; [eauto|].
  apply Z.eqb_neq in Hz.
  assert (Hb := count_if_bounds pr_success (session_history st)).
  destruct (truediv_returns (success_count (memory_status st))
              (total_problems (memory_status st))) as (q & -> & _);
    [lia | lia | eauto].
Qed.

(** X7: on every store reachable by tool calls [get_memory_summary]
    returns and leaves the store as it was; its [raw_data] is the
    status, and its text is the fresh-start sentence when the history is
    empty and begins with the heading [AGENT MEMORY SUMMARY:]
    otherwise. *)
Theorem summary_of_reachable_store (ts : list tool) :
  let st := run_tools ts init in
  exists s,
    call_tool tool_get_memory_summary st = (reply_summary s, st)
    /\ raw_data s = memory_status st
    /\ (session_history st = [] ->
        summary s = "No previous experience. This is a fresh start.")
    /\ (session_history st <> [] ->
        startswith (summary s) "AGENT MEMORY SUMMARY:" = true).
Proof.
  cbv zeta. set (st := run_tools ts init).
  destruct (run_tools_counts ts) as (Ht & Hs & _). fold st in Ht, Hs.
  unfold call_tool, handle, get_memory_summary, bind, get, ret, lift.
  destruct (total_problems (memory_status st) =? 0) eqn:Hz.
  - eexists. split; [reflexivity|]. split; [reflexivity|].
    split; [reflexivity|]. intros Hne. exfalso.
    apply Z.eqb_eq in Hz. rewrite Ht in Hz.
    destruct (session_history st); [congruence | simpl in Hz; lia].
  - apply Z.eqb_neq in Hz.
    assert (Hb := count_if_bounds pr_success (session_history st)).
    destruct (truediv_returns (success_count (memory_status st))
                (total_problems (memory_status st))) as (q & -> & _); [lia | lia|].
    eexists. split; [reflexivity|]. split; [reflexivity|].
    split.
    + intros He. rewrite He in Ht. simpl in Ht. lia.
    + intros _. cbn [summary]. unfold startswith.
      repeat match goal with
             | |- String.prefix _ (match ?x with _ => _ end) = true => destruct x
             | |- String.prefix _ (if ?x then _ else _) = true => destruct x
             | |- String.prefix ?p (?p +:+ _) = true => apply prefix_append_self
             | |- String.prefix _ (_ +:+ _) = true => apply prefix_append
             end.
Qed.

Lemma last_drop {A} (k : nat) (l : list A) :
  (k < length l)%nat -> last (drop k l) = last l.
Proof.
  revert k. induction l as [|x l IH]; intros k Hk; [simpl in Hk; lia|].
  destruct k as [|k]; [reflexivity|].
  simpl drop. simpl in Hk. rewrite IH by lia.
  destruct l; [simpl in Hk; lia | reflexivity].
Qed.

Lemma get_recent_history_run (limit : Z) (st : ModularMemoryStore) :
  let recent := match session_history st with
                | [] => []
                | _ :: _ => slice_from (- limit) (session_history st)
                end in
  exists rate,
    get_recent_history limit st
    = (Returned {| recent_problems := recent;
                   count := Z.of_nat (length recent);
                   analysis_success_rate := rate;
                   most_recent_result := last recent;
                   trend := _analyze_recent_trend st |}, st)
    /\ (recent = [] -> rate = "0%").
Proof.
  cbv zeta. unfold get_recent_history, bind, get, ret, lift.
  set (recent := match session_history st with [] => [] | _ :: _ => _ end).
  destruct recent as [|r l] eqn:E.
  - eexists. split; reflexivity.
  - assert (Hb := count_if_bounds pr_success (r :: l)).
    destruct (truediv_returns (count_if pr_success (r :: l))
                (Z.of_nat (length (r :: l)))) as (q & -> & _);
      [lia | simpl; lia |].
    eexists. split; [reflexivity | discriminate].
Qed.

(** X8: [get_recent_history] with a positive [limit] returns, on any
    store, the last [limit] records in their order (all of them when
    there are fewer), with [count = min(limit, len)] and the last stored
    record as [most_recent_result]; the store is left as it was. *)
Theorem recent_history_of_positive_limit (st : ModularMemoryStore) (limit : Z) :
  0 < limit ->
  let h := session_history st in
  exists r,
    call_tool (tool_get_recent_history (Some limit)) st = (reply_history r, st)
    /\ recent_problems r = drop (length h - Z.to_nat limit) h
    /\ count r = Z.min limit (Z.of_nat (length h))
    /\ most_recent_result r = last h.
Proof.
  intros Hl. cbv zeta. unfold call_tool, handle.
  change (default 5 (Some limit)) with limit.
  destruct (get_recent_history_run limit st) as (rate & -> & _).
  eexists. split; [reflexivity|]. cbn [recent_problems count most_recent_result].
  destruct (session_history st) as [|x l] eqn:E.
  - repeat split. simpl. lia.
  - rewrite <- E. assert (Hn : (0 < length (session_history st))%nat)
      by (rewrite E; simpl; lia).
    assert (Hs : slice_from (- limit) (session_history st)
                 = drop (length (session_history st) - Z.to_nat limit)
                        (session_history st)).
    { unfold slice_from.
      replace (- limit <? 0) with true by (symmetry; apply Z.ltb_lt; lia).
      f_equal. lia. }
    rewrite Hs. split; [reflexivity|]. split.
    + rewrite length_drop. lia.
    + apply last_drop. lia.
Qed.

(** X9: [get_recent_history] never ends in an error reply, for an
    absent [limit] and for every integer one, and leaves the store as it
    was; what it returns is a suffix of the history, [count] is its
    length, a negative [limit = -k] drops the first [k] records instead
    of keeping the last ones, and on an empty history the reply is
    "0%", no most recent result and the trend "insufficient data". *)
Theorem recent_history_never_fails (st : ModularMemoryStore) (limit : option Z) :
  let h := session_history st in
  exists r,
    call_tool (tool_get_recent_history limit) st = (reply_history r, st)
    /\ (exists k, recent_problems r = drop k h)
    /\ count r = Z.of_nat (length (recent_problems r))
    /\ (forall l, limit = Some l -> l < 0 ->
          recent_problems r = drop (Z.to_nat (- l)) h)
    /\ (h = [] -> analysis_success_rate r = "0%"
                  /\ most_recent_result r = None
                  /\ trend r = "insufficient data").
Proof.
  cbv zeta. unfold call_tool, handle.
  destruct (get_recent_history_run (default 5 limit) st) as (rate & -> & Hrate).
  eexists. split; [reflexivity|].
  cbn [recent_problems count most_recent_result analysis_success_rate trend].
  destruct (session_history st) as [|x l] eqn:E.
  - split; [exists 0%nat; reflexivity|]. split; [reflexivity|].
    split; [intros; symmetry; apply drop_nil|].
    intros _. split; [apply Hrate; reflexivity|]. split; [reflexivity|].
    unfold _analyze_recent_trend. rewrite E. reflexivity.
  - rewrite <- E. split; [eexists; reflexivity|]. split; [reflexivity|].
    split; [|rewrite E; discriminate].
    intros z -> Hz. change (default 5 (Some z)) with z. unfold slice_from.
    replace (- z <? 0) with false by (symmetry; apply Z.ltb_ge; lia).
    destruct (Z_le_gt_dec (- z) (Z.of_nat (length (session_history st)))).
    + rewrite Z.min_l by lia. reflexivity.
    + rewrite Z.min_r by lia. rewrite Nat2Z.id.
      rewrite drop_all. symmetry. apply drop_ge. lia.
Qed.

(** A run of store calls appends its records. *)
Lemma run_stores_history (reqs : list (Z * StoreResultRequest)) :
  forall st, counts_history st ->
    counts_history (run_tools (map store_call reqs) st)
    /\ session_history (run_tools (map store_call reqs) st)
       = session_history st ++ map record_of reqs.
Proof.
  induction reqs as [|[now request] reqs IH]; intros st Hc.
  - simpl. rewrite app_nil_r. split; [exact Hc | reflexivity].
  - change (run_tools (map store_call ((now, request) :: reqs)) st)
      with (run_tools (map store_call reqs)
              (snd (call_tool (tool_store_result now request) st))).
    rewrite call_tool_store.
    destruct (store_result_counts now request st Hc) as (q & _ & _ & -> & Hc').
    cbn [snd]. destruct (IH _ Hc') as (H1 & H2). split; [exact H1|].
    rewrite H2. unfold stored, counted. cbn [session_history].
    rewrite <- app_assoc. reflexivity.
Qed.

Lemma count_if_all {A} (p : A -> bool) (l : list A) :
  Forall (fun x => p x = true) l -> count_if p l = Z.of_nat (length l).
Proof.
  induction 1 as [|x l Hx _ IH]; [reflexivity|].
  rewrite count_if_cons, Hx, IH. simpl length. lia.
Qed.

Lemma count_if_none {A} (p : A -> bool) (l : list A) :
  Forall (fun x => p x = false) l -> count_if p l = 0.
Proof.
  induction 1 as [|x l Hx _ IH]; [reflexivity|].
  rewrite count_if_cons, Hx, IH. lia.
Qed.

Lemma window_5 {A} (h rs : list A) :
  slice_from (-5) (h ++ rs)
  = drop (length h + length rs - 5) h ++ drop (length h + length rs - 5 - length h) rs.
Proof.
  unfold slice_from. change (-5 <? 0) with true. cbv iota.
  rewrite <- drop_app. f_equal. rewrite length_app. lia.
Qed.

(** X10: on a store reachable by tool calls, after five or more
    successful stores in a row the trend is "strongly improving", and
    after four or more failed stores in a row it is "declining",
    whatever was stored before. *)
Theorem trend_after_a_streak (ts : list tool)
    (reqs : list (Z * StoreResultRequest)) :
  let st := run_tools (map store_call reqs) (run_tools ts init) in
  ((5 <= length reqs)%nat ->
   Forall (fun r => req_success (snd r) = true) reqs ->
   _analyze_recent_trend st = "strongly improving")
  /\ ((4 <= length reqs)%nat ->
      Forall (fun r => req_success (snd r) = false) reqs ->
      _analyze_recent_trend st = "declining").
Proof.
  cbv zeta.
  destruct (run_stores_history reqs _ (run_tools_counts ts)) as (_ & Hh).
  set (h := session_history (run_tools ts init)) in *.
  unfold _analyze_recent_trend. rewrite Hh, window_5, count_if_app, length_app.
  assert (Hlen : length (map record_of reqs) = length reqs) by apply length_map.
  assert (Hmap : forall b, Forall (fun r => req_success (snd r) = b) reqs ->
                           Forall (fun x => pr_success x = b) (map record_of reqs)).
  { intros b H. apply List.Forall_map. exact H. }
  set (rs := map record_of reqs) in *. rewrite Hlen.
  set (k := (length h + length reqs - 5)%nat).
  split; intros Hn Hall; apply Hmap in Hall.
  - replace (_ <? 2) with false by (symmetry; apply Z.ltb_ge; lia).
    rewrite (drop_ge h k) by (unfold k; lia). rewrite count_if_nil.
    rewrite count_if_all by (apply Forall_drop, Hall).
    rewrite length_drop, Hlen.
    replace (4 <=? _) with true by (symmetry; apply Z.leb_le; unfold k; lia).
    reflexivity.
  - replace (_ <? 2) with false by (symmetry; apply Z.ltb_ge; lia).
    rewrite (count_if_none _ (drop _ rs)) by (apply Forall_drop, Hall).
    assert (Hb := count_if_bounds pr_success (drop k h)).
    rewrite length_drop in Hb.
    replace (4 <=? _) with false by (symmetry; apply Z.leb_gt; unfold k in *; lia).
    replace (3 <=? _) with false by (symmetry; apply Z.leb_gt; unfold k in *; lia).
    replace (2 <=? _) with false by (symmetry; apply Z.leb_gt; unfold k in *; lia).
    reflexivity.
Qed.


End StoreMore.

Module AgentMore.
#[local] Set Warnings "-notation-overridden".
Import Agent AgentSpec AgentFacts MoreSpec.

Section More.

Variable W : world.

(** Clamping a clamped value changes nothing. *)
Lemma clamp_clamp (x : float) :
  let c := py_max f0_0 (py_min f1_0 x) in
  py_max f0_0 (py_min f1_0 c) = c.
Proof.
  cbv zeta. unfold py_max, py_min, flt.
  destruct (SFltb x f1_0) eqn:H1.
  - destruct (SFltb f0_0 x) eqn:H0.
    + rewrite H1, H0. reflexivity.
    + reflexivity.
  - reflexivity.
Qed.

Lemma stringify_stringify (v : json) :
  stringify W (stringify W v) = stringify W v.
Proof. reflexivity. Qed.

Lemma listify_listify (v : json) : listify W (listify W v) = listify W v.
Proof.
  assert (H : forall l, map (stringify W) (map (stringify W) l)
                        = map (stringify W) l).
  { induction l as [|x l IH]; [reflexivity|]. simpl. rewrite IH. reflexivity. }
  destruct v; cbn [listify]; try reflexivity.
  rewrite H. reflexivity.
Qed.

Lemma clamp_or_default_twice (v : json) :
  clamp_or_default W (clamp_or_default W v) = clamp_or_default W v.
Proof.
  unfold clamp_or_default at 2 3. destruct (py_float W v) as [x|e].
  - unfold clamp_or_default. cbn [py_float]. rewrite clamp_clamp. reflexivity.
  - reflexivity.
Qed.

Lemma coerce_field_twice (k : string) (v : json) :
  coerce_field W k (coerce_field W k v) = coerce_field W k v.
Proof.
  unfold coerce_field. repeat case_decide;
    auto using stringify_stringify, listify_listify, clamp_or_default_twice.
Qed.

Lemma lookup_validated (d d' : gmap string json) :
  _validate_and_fix_result W d = Returned d' ->
  forall k, d' !! k = coerce_field W k <$> d !! k.
Proof.
  unfold _validate_and_fix_result.
  assert (H := fix_confidence_cases W (fix_steps W (fix_result W d))).
  destruct (fix_confidence W (fix_steps W (fix_result W d))) as [d1|x];
    [|discriminate].
  intros [= <-] k.
  rewrite !lookup_fix_text, H, lookup_fix_steps, fix_result_fix_text,
    lookup_fix_text.
  unfold coerce_field.
  repeat case_decide; try congruence; destruct (d !! k); reflexivity.
Qed.

Lemma validation_raises (d : gmap string json) (x : exn) :
  _validate_and_fix_result W d = Raised x ->
  exists z, d !! "confidence" = Some (JInt z) /\ float_of_int z = Raised x.
Proof.
  unfold _validate_and_fix_result.
  assert (H := fix_confidence_cases W (fix_steps W (fix_result W d))).
  destruct (fix_confidence W (fix_steps W (fix_result W d))) as [d1|y];
    [discriminate|].
  intros [= <-]. destruct H as (z & Hz & Hx). exists z. split; [|exact Hx].
  rewrite lookup_fix_steps, fix_result_fix_text, lookup_fix_text in Hz.
  repeat case_decide; try congruence.
Qed.

(** X12: whenever [_validate_and_fix_result] returns, the dict it
    returns has the keys of its argument; under [result], [verification]
    and [execution_notes] is [str] of the old value, under [steps] a
    list of strings, under [confidence] a float between 0 and 1, and
    under every other key the old value.  It fails to return only on an
    integer confidence that [float] cannot hold. *)
Theorem coercion_by_field (d : gmap string json) :
  match _validate_and_fix_result W d with
  | Returned d' =>
      (forall k, d' !! k = coerce_field W k <$> d !! k)
      /\ dom d' = dom d
      /\ (forall v, d' !! "confidence" = Some v ->
            exists c, v = JFloat c /\ fle f0_0 c = true /\ fle c f1_0 = true)
  | Raised x =>
      exists z, d !! "confidence" = Some (JInt z) /\ float_of_int z = Raised x
  end.
Proof.
  destruct (_validate_and_fix_result W d) as [d'|x] eqn:E.
  - assert (H := lookup_validated d d' E). split; [exact H|]. split.
    + apply set_eq. intros k. rewrite !elem_of_dom, H, fmap_is_Some. reflexivity.
    + intros v Hv. rewrite H in Hv.
      destruct (d !! "confidence") as [v0|]; [|discriminate].
      injection Hv as <-. apply clamp_or_default_in_range.
  - apply validation_raises, E.
Qed.

(** X13: [_validate_and_fix_result] is idempotent: applied to a dict
    it has returned, it returns that dict. *)
Theorem coercion_idempotent (d d' : gmap string json) :
  _validate_and_fix_result W d = Returned d' ->
  _validate_and_fix_result W d' = Returned d'.
Proof.
  intros E. assert (H := lookup_validated d d' E).
  destruct (_validate_and_fix_result W d') as [d''|x] eqn:E'.
  - f_equal. apply map_eq. intros k.
    rewrite (lookup_validated d' d'' E' k), H.
    destruct (d !! k); [|reflexivity]. cbn. rewrite coerce_field_twice. reflexivity.
  - exfalso. destruct (validation_raises d' x E') as (z & Hz & _).
    rewrite H in Hz. destruct (d !! "confidence") as [v|]; [|discriminate].
    injection Hz as Hz. change (clamp_or_default W v = JInt z) in Hz.
    destruct (clamp_or_default_in_range W v) as (c & Hc & _). congruence.
Qed.

End More.

End AgentMore.

Module FenceFacts.
Import Agent MoreSpec.







End FenceFacts.

Module AgentFlow.
#[local] Set Warnings "-notation-overridden".
Import Agent AgentSpec AgentFacts MoreSpec TextFacts FenceFacts.

Section Flow.

Variable W : world.


(** X15: none of the four stages raises, whatever the oracle does and
    whatever the reply is: each returns a value and has made exactly one
    oracle call, with the prompt built from its input. *)
Theorem stages_never_raise (l : log) :
  (forall e, exists p,
     PerceptionAgent_analyze W e l
     = (Returned p, l ++ [(Perception, _create_perception_prompt W e)]))
  /\ (forall i, exists m,
        MemoryAgent_consult W i l
        = (Returned m, l ++ [(Memory, _create_memory_prompt W i)]))
  /\ (forall i, exists d,
        DecisionAgent_decide W i l
        = (Returned d, l ++ [(Decision, _create_decision_prompt W i)]))
  /\ (forall i, exists a,
        ActionAgent_execute W i l
        = (Returned a, l ++ [(Action, _create_action_prompt W i)])).
Proof.
  split; [|split; [|split]]; intros x; eexists.
  - apply PerceptionAgent_analyze_run.
  - apply MemoryAgent_consult_run.
  - apply DecisionAgent_decide_run.
  - apply ActionAgent_execute_run.
Qed.

(** X16: [analyze] always returns a bundle for the expression, stamped
    with the clock reading.  Its perception is what the Perception stage
    returns; when that is valid the oracle is called four times, in the
    order Perception, Memory, Decision, Action, the Memory prompt being
    built from the perception and the memory summary, the Decision
    prompt from the perception and the bundle's memory, the Action
    prompt from the perception and the bundle's decision; when it is not
    valid only Perception is called and the bundle is the error bundle
    for [perception_error].  In both cases [success] holds exactly when
    the perception is valid and the result does not start with
    [Error]. *)
Theorem analyze_data_flow (now : Z) (e memory_summary : string) (l : log) :
  exists b l',
    analyze W now e memory_summary l = (Returned b, l')
    /\ expression b = e /\ timestamp b = now
    /\ fst (PerceptionAgent_analyze W e l) = Returned (perception b)
    /\ success b
       = is_valid (perception b)
         && negb (startswith (result (action b)) "Error")
    /\ let pp := (Perception, _create_perception_prompt W e) in
       if is_valid (perception b)
       then
         l' = l ++ [ pp;
                     (Memory, _create_memory_prompt W
                                {| mi_expression := e;
                                   mi_perception_data := perception b;
                                   mi_memory_summary := memory_summary |});
                     (Decision, _create_decision_prompt W
                                  {| di_expression := e;
                                     di_perception_data := perception b;
                                     di_memory_data := memory b |});
                     (Action, _create_action_prompt W
                                {| ai_expression := e;
                                   ai_perception_data := perception b;
                                   ai_decision_data := decision b |}) ]
       else
         l' = l ++ [pp]
         /\ b = _create_error_result now e (Some (perception b))
                  "perception_error".
Proof.
  unfold analyze, try_except, bind.
  rewrite PerceptionAgent_analyze_run.
  set (p := settle _ _).
  destruct (is_valid p) eqn:Hp; cbn [negb].
  - rewrite MemoryAgent_consult_run, DecisionAgent_decide_run,
      ActionAgent_execute_run. unfold ret.
    eexists. eexists. split; [reflexivity|].
    cbn [expression timestamp perception memory decision action success fst].
    rewrite Hp. rewrite <- !app_assoc.
    repeat split.
  - unfold ret. eexists. eexists. split; [reflexivity|].
    cbn [_create_error_result expression timestamp perception action success
         result fst].
    rewrite Hp. repeat split.
Qed.


Lemma validation_overflows (d : gmap string json) (z : Z) (x : exn) :
  d !! "confidence" = Some (JInt z) -> float_of_int z = Raised x ->
  _validate_and_fix_result W d = Raised x
  /\ x = OverflowError "int too large to convert to float".
Proof.
  intros Hd Hz.
  assert (Hx : x = OverflowError "int too large to convert to float").
  { unfold float_of_int in Hz.
    destruct (is_inf _); [injection Hz as <-; reflexivity | discriminate]. }
  split; [|exact Hx].
  unfold _validate_and_fix_result, fix_confidence.
  rewrite lookup_fix_steps, fix_result_fix_text, lookup_fix_text.
  repeat (case_decide; try congruence).
  rewrite Hd. cbn [py_float]. rewrite Hz, Hx. reflexivity.
Qed.

(** X18: when the perception is valid and the oracle raises on the
    Memory call, or answers it with text that does not parse, the run
    goes on: the bundle's memory is the Memory stage's own fallback
    (confidence modifier 0.6, conservative approach, the error text in
    it), the Decision and Action calls are still made, and [success] is
    decided by the Action result alone. *)
Theorem memory_failure_is_isolated (now : Z) (e memory_summary : string)
    (l l1 : log) (p : PerceptionOutput) (x : exn) :
  PerceptionAgent_analyze W e l = (Returned p, l1) ->
  is_valid p = true ->
  let memory_input := {| mi_expression := e;
                         mi_perception_data := p;
                         mi_memory_summary := memory_summary |} in
  let memory_prompt := _create_memory_prompt W memory_input in
  (oracle W (length l1) memory_prompt = Raised x
   \/ exists text, oracle W (length l1) memory_prompt = Returned text
                   /\ _parse_llm_response W text = Raised x) ->
  exists b l',
    analyze W now e memory_summary l = (Returned b, l')
    /\ perception b = p
    /\ memory b = MemoryAgent_create_error_response memory_input (exn_str x)
    /\ confidence_modifier (memory b) = f0_6
    /\ strategy_recommendation (memory b) = conservative_approach
    /\ (exists decision_prompt action_prompt,
          l' = l1 ++ [(Memory, memory_prompt); (Decision, decision_prompt);
                      (Action, action_prompt)])
    /\ success b = negb (startswith (result (action b)) "Error").
Proof.
  intros Hrun Hp memory_input memory_prompt Hfail.
  assert (Hparsed : parsed_reply W l1 memory_prompt = Raised x).
  { unfold parsed_reply. destruct Hfail as [-> | (text & -> & ->)]; reflexivity. }
  rewrite PerceptionAgent_analyze_run in Hrun. injection Hrun as Hp' Hl1.
  unfold analyze, try_except, bind.
  rewrite PerceptionAgent_analyze_run, Hp', Hl1, Hp. cbn [negb].
  rewrite MemoryAgent_consult_run, DecisionAgent_decide_run,
    ActionAgent_execute_run. unfold ret.
  fold memory_input. fold memory_prompt. rewrite Hparsed.
  cbn [and_then settle].
  eexists. eexists. split; [reflexivity|].
  cbn [perception memory success action].
  split; [reflexivity|]. split; [reflexivity|]. split; [reflexivity|].
  split; [reflexivity|]. split; [|reflexivity].
  eexists. eexists. rewrite <- !app_assoc. reflexivity.
Qed.

(** X19: when the Action reply is a JSON object whose confidence is
    an integer that [float] cannot hold, the [OverflowError] that
    escapes the coercion is caught by [execute]: the stage returns its
    error response, with result
    [Error: int too large to convert to float] and confidence 0.0,
    whatever else the reply held. *)
Theorem overflow_confidence_becomes_error (i : ActionInput) (l : log)
    (text : string) (d : gmap string json) (z : Z) (x : exn) :
  oracle W (length l) (_create_action_prompt W i) = Returned text ->
  _parse_llm_response W text = Returned (JDict d) ->
  d !! "confidence" = Some (JInt z) ->
  float_of_int z = Raised x ->
  exists a,
    ActionAgent_execute W i l
    = (Returned a, l ++ [(Action, _create_action_prompt W i)])
    /\ a = ActionAgent_create_error_response i
             "int too large to convert to float"
    /\ result a = "Error: int too large to convert to float"
    /\ startswith (result a) "Error" = true
    /\ confidence a = f0_0.
Proof.
  intros Ho Hparse Hd Hz.
  destruct (validation_overflows d z x Hd Hz) as (Hv & ->).
  rewrite ActionAgent_execute_run.
  unfold parsed_reply. rewrite Ho, Hparse.
  cbn [and_then coerced]. rewrite Hv. cbn [and_then settle exn_str].
  eexists. split; [reflexivity|]. repeat split.
Qed.

End Flow.

End AgentFlow.

Module ClientFacts.
#[local] Set Warnings "-notation-overridden".
Import FloatSpec PyFacts MemoryStore StoreSpec StoreFacts Agent AgentSpec
  AgentFacts Client MoreSpec StoreMore.

Section Solving.

Variable W : world.

Lemma analyze_returns (now : Z) (e memory_summary : string) (l : log) :
  exists b l', analyze W now e memory_summary l = (Returned b, l')
               /\ expression b = e.
Proof.
  unfold analyze, try_except, bind.
  rewrite PerceptionAgent_analyze_run.
  destruct (is_valid _); cbn [negb].
  - rewrite MemoryAgent_consult_run, DecisionAgent_decide_run,
      ActionAgent_execute_run. unfold ret.
    eexists. eexists. split; reflexivity.
  - unfold ret. eexists. eexists. split; reflexivity.
Qed.

Lemma quick_solve_returns (e : string) (l : log) :
  exists a l', quick_solve W e l = (Returned a, l').
Proof.
  unfold quick_solve, try_except, bind.
  rewrite PerceptionAgent_analyze_run.
  destruct (is_valid _); cbn [negb].
  - rewrite ActionAgent_execute_run. eauto.
  - unfold ret. eauto.
Qed.

Lemma show_memory_impact_reads (st : ModularMemoryStore) :
  _show_memory_impact st = st.
Proof.
  unfold _show_memory_impact, call_tool. rewrite !handle_snd.
  rewrite get_recent_history_reads. reflexivity.
Qed.

Lemma store_call_appends (now : Z) (request : StoreResultRequest)
    (st : ModularMemoryStore) :
  counts_history st ->
  let st' := snd (call_tool (tool_store_result now request) st) in
  session_history st' = session_history st ++ [record_of (now, request)]
  /\ total_problems (memory_status st') = total_problems (memory_status st) + 1
  /\ counts_history st'.
Proof.
  intros Hc. cbv zeta. rewrite call_tool_store.
  destruct (store_result_counts now request st Hc) as (q & _ & _ & -> & Hc').
  cbn [snd]. split; [reflexivity|]. split; [reflexivity | exact Hc'].
Qed.

(** X20: on a store reachable by tool calls,
    [solve_with_complete_cognitive_analysis] never takes its [except]
    branch: it returns the bundle that [analyze] builds from the store's
    current summary, and leaves the store with exactly one more record,
    built from the bundle (problem, result, success flag, the selected
    method as strategy, the Action confidence); showing the memory
    impact changes nothing. *)
Theorem solve_stores_the_bundle (ts : list tool) (now_bundle now_record : Z)
    (e : string) (l : log) :
  let st := run_tools ts init in
  exists s b l' st',
    call_tool tool_get_memory_summary st = (reply_summary s, st)
    /\ analyze W now_bundle e (summary s) l = (Returned b, l')
    /\ solve_with_complete_cognitive_analysis W now_bundle now_record e st l
       = (Some b, st', l')
    /\ session_history st'
       = session_history st
         ++ [ {| pr_timestamp := now_record;
                 pr_problem := e;
                 pr_result := result (action b);
                 pr_success := success b;
                 pr_strategy_used :=
                   Some (Method_str (selected_method (decision b)));
                 pr_confidence := Some (confidence (action b)) |} ]
    /\ total_problems (memory_status st')
       = total_problems (memory_status st) + 1.
Proof.
  cbv zeta. set (st := run_tools ts init).
  assert (Hc : counts_history st) by apply run_tools_counts.
  destruct (call_summary_returns st Hc) as (s & Hs).
  destruct (analyze_returns now_bundle e (summary s) l) as (b & l' & Hb & He).
  unfold solve_with_complete_cognitive_analysis.
  rewrite Hs. cbn [summary_of_reply]. rewrite Hb.
  rewrite show_memory_impact_reads. unfold _store_result.
  destruct (store_call_appends now_record (request_of_bundle b) st Hc)
    as (Hh & Ht & _).
  exists s, b, l'. eexists. split; [reflexivity|]. split; [exact Hb|].
  split; [reflexivity|]. split; [|exact Ht].
  rewrite Hh. unfold record_of, request_of_bundle. cbn [fst snd req_problem
    req_result req_success req_strategy_used req_confidence].
  rewrite He. reflexivity.
Qed.

(** X21: on a store reachable by tool calls, [simple_solve] returns
    what [quick_solve] returns and stores exactly one record for it,
    with strategy [quick_solve], the Action confidence, and a success
    flag that is false exactly when the result starts with [Error]. *)
Theorem simple_solve_stores_quick_record (ts : list tool) (now : Z)
    (e : string) (l : log) :
  let st := run_tools ts init in
  exists a l' st',
    quick_solve W e l = (Returned a, l')
    /\ simple_solve W now e st l = (Some a, st', l')
    /\ session_history st'
       = session_history st
         ++ [ {| pr_timestamp := now;
                 pr_problem := e;
                 pr_result := result a;
                 pr_success := negb (startswith (result a) "Error");
                 pr_strategy_used := Some "quick_solve";
                 pr_confidence := Some (confidence a) |} ]
    /\ total_problems (memory_status st')
       = total_problems (memory_status st) + 1.
Proof.
  cbv zeta. set (st := run_tools ts init).
  assert (Hc : counts_history st) by apply run_tools_counts.
  destruct (quick_solve_returns e l) as (a & l' & Ha).
  unfold simple_solve. rewrite Ha.
  match goal with
  | |- context [call_tool (tool_store_result now ?r) st] =>
      destruct (store_call_appends now r st Hc) as (Hh & Ht & _)
  end.
  exists a, l'. eexists. split; [reflexivity|]. split; [reflexivity|].
  split; [exact Hh | exact Ht].
Qed.

End Solving.

End ClientFacts.

(** ** Witnesses of the further properties *)

Module MoreExamples.
#[local] Set Warnings "-notation-overridden".
Import MemoryStore StoreSpec StoreFacts Agent AgentSpec Scenario MoreSpec
  MoreScenario StoreMore AgentMore AgentFlow.

(** X8, witness: the last three of seven stored records. *)
Lemma recent_history_of_positive_limit_witness :
  0 < 3
  /\ exists r,
       call_tool (tool_get_recent_history (Some 3)) (store_all (requests 7 true))
       = (reply_history r, store_all (requests 7 true))
       /\ count r = 3
       /\ recent_problems r = map record_of (requests 3 true).
Proof.
  assert (H : 0 < 3) by lia.
  split; [exact H|].
  pose proof (recent_history_of_positive_limit (store_all (requests 7 true)) 3 H)
    as X.
  cbv zeta in X. destruct X as (r & Hc & Hr & Hn & _).
  exists r. split; [exact Hc|].
  split; [rewrite Hn | rewrite Hr]; reflexivity.
Defined.


(** X18, witness: the Memory call of a run is refused. *)
Lemma memory_failure_is_isolated_witness :
  PerceptionAgent_analyze memory_down "5 + 3" []
  = (Returned perceived, [(Perception, "perceive 5 + 3")])
  /\ is_valid perceived = true
  /\ exists b l',
       analyze memory_down 0 "5 + 3" "" [] = (Returned b, l')
       /\ perception b = perceived
       /\ confidence_modifier (memory b) = f0_6
       /\ session_success_rate (memory b)
          = "Error accessing memory: 429 quota exceeded"
       /\ length l' = 4%nat.
Proof.
  assert (Hp : PerceptionAgent_analyze memory_down "5 + 3" []
               = (Returned perceived, [(Perception, "perceive 5 + 3")]))
    by reflexivity.
  split; [exact Hp|]. split; [reflexivity|].
  pose proof (memory_failure_is_isolated memory_down 0 "5 + 3" "" [] _ _
                (OtherError "429 quota exceeded") Hp eq_refl) as X.
  cbv zeta in X.
  destruct (X (or_introl eq_refl))
    as (b & l' & Hb & Hpb & Hm & Hc & _ & (dp & ap & Hl) & _).
  exists b, l'. split; [exact Hb|]. split; [exact Hpb|]. split; [exact Hc|].
  split; [rewrite Hm; reflexivity | rewrite Hl; reflexivity].
Defined.

(** X19, witness: the oracle answers the Action call with a confidence
    of [10**400]. *)
Lemma overflow_confidence_becomes_error_witness :
  oracle overconfident 0 (_create_action_prompt overconfident action_input)
  = Returned huge_confidence_reply
  /\ _parse_llm_response overconfident huge_confidence_reply
     = Returned (JDict {[ "confidence" := JInt (10 ^ 400) ]})
  /\ float_of_int (10 ^ 400)
     = Raised (OverflowError "int too large to convert to float")
  /\ exists a,
       ActionAgent_execute overconfident action_input []
       = (Returned a, [(Action, "execute 5 + 3")])
       /\ result a = "Error: int too large to convert to float".
Proof.
  assert (Ho : oracle overconfident (length ([] : log))
                 (_create_action_prompt overconfident action_input)
               = Returned huge_confidence_reply) by reflexivity.
  assert (Hp : _parse_llm_response overconfident huge_confidence_reply
               = Returned (JDict {[ "confidence" := JInt (10 ^ 400) ]}))
    by (vm_compute; reflexivity).
  assert (Hf : float_of_int (10 ^ 400)
               = Raised (OverflowError "int too large to convert to float"))
    by (vm_compute; reflexivity).
  split; [exact Ho|]. split; [exact Hp|]. split; [exact Hf|].
  destruct (overflow_confidence_becomes_error overconfident action_input []
              huge_confidence_reply _ (10 ^ 400) _ Ho Hp
              (lookup_singleton_eq _ _) Hf)
    as (a & Ha & _ & Hr & _).
  exists a. split; [exact Ha | exact Hr].
Defined.

(** X13, witness: a numeric result and an infinite confidence. *)
Lemma coercion_idempotent_witness :
  _validate_and_fix_result answering
    {[ "result" := JInt 8; "confidence" := JFloat (S754_infinity false) ]}
  = Returned {[ "result" := JStr "8"; "confidence" := JFloat f1_0 ]}
  /\ _validate_and_fix_result answering
       {[ "result" := JStr "8"; "confidence" := JFloat f1_0 ]}
     = Returned {[ "result" := JStr "8"; "confidence" := JFloat f1_0 ]}.
Proof.
  assert (H : _validate_and_fix_result answering
                {[ "result" := JInt 8;
                   "confidence" := JFloat (S754_infinity false) ]}
              = Returned {[ "result" := JStr "8"; "confidence" := JFloat f1_0 ]})
    by (vm_compute; reflexivity).
  split; [exact H|].
  exact (coercion_idempotent answering _ _ H).
Defined.



End MoreExamples.
